(** * Lex model-building finders: latest-version resolution

    A shallow embedding of [internal/service/lexmodels] finder helpers
    ([FindBotVersionByName], [FindSlotTypeVersionByName] and the three
    [FindLatest*VersionByName] resolvers) together with the parts of the Go
    standard library and SDK they call: [strconv.Atoi], [strconv.Itoa],
    [aws.String], [aws.ToString], [errs.IsA] and the page iterator.

    Go's [int] is the 64-bit signed integer; it is carried as a [Z] inside
    [minInt .. maxInt].  Go strings are byte strings, carried as [string]. *)

From Stdlib Require Import ZArith List String Ascii Bool Lia.
Import ListNotations.
Open Scope string_scope.
Open Scope list_scope.
Open Scope Z_scope.

Set Implicit Arguments.

(* ================================================================== *)
(** ** The Go standard library: package strconv *)

Module strconv.

(** [strconv.IntSize] on the 64-bit targets. *)
Definition intSize : Z := 64.
Definition maxInt : Z := 2 ^ (intSize - 1) - 1.
Definition minInt : Z := - 2 ^ (intSize - 1).

(** [ch -= '0'; if ch > 9 { syntax error }] on one byte. *)
Definition digitValue (ch : ascii) : option Z :=
  let b := Z.of_N (N_of_ascii ch) in
  if (48 <=? b) && (b <=? 57) then Some (b - 48) else None.

(** The digit loop [n = n*10 + int(ch)], failing on the first byte that
    is not a decimal digit. *)
Fixpoint parseDigits (n : Z) (s : string) : option Z :=
  match s with
  | EmptyString => Some n
  | String ch rest =>
      match digitValue ch with
      | None => None
      | Some d => parseDigits (n * 10 + d) rest
      end
  end.

Definition isSign (ch : ascii) : bool :=
  Ascii.eqb ch "-" || Ascii.eqb ch "+".

(** [strconv.Atoi]: an optional sign, then one or more decimal digits
    (base 10, no underscores); the value must fit [int].  [None] stands
    for a non-nil error ([ErrSyntax] or [ErrRange]); the callers below
    only test [err != nil]. *)
Definition Atoi (s : string) : option Z :=
  match s with
  | EmptyString => None
  | String s0 tl =>
      let body := if isSign s0 then tl else s in
      match body with
      | EmptyString => None
      | _ =>
          match parseDigits 0 body with
          | None => None
          | Some n =>
              let v := if Ascii.eqb s0 "-" then - n else n in
              if (minInt <=? v) && (v <=? maxInt) then Some v else None
          end
      end
  end.

(** The byte ['0' + d]. *)
Definition digitChar (d : Z) : ascii := ascii_of_N (Z.to_N (48 + d)).

(** The loop of [formatBits] for base 10: digits are produced from the
    least significant one and written in front of what is already there.
    The buffer of [formatBits] bounds the number of rounds. *)
Fixpoint formatDigits (rounds : nat) (u : Z) (a : string) : string :=
  match rounds with
  | O => a
  | S k =>
      if u <? 10 then String (digitChar u) a
      else formatDigits k (u / 10) (String (digitChar (u mod 10)) a)
  end.

(** [strconv.Itoa] = [FormatInt(int64(i), 10)]. *)
Definition Itoa (i : Z) : string :=
  if i <? 0 then String "-" (formatDigits 20 (- i) EmptyString)
  else formatDigits 20 i EmptyString.

End strconv.

(* ================================================================== *)
(** ** The SDK: package aws and the Lex model-building service types *)

Module aws.

(** [aws.String]: a pointer to the value. *)
Definition String (v : string) : option string := Some v.

(** [aws.ToString]: the pointed-to value, or the empty string for nil. *)
Definition ToString (p : option string) : string :=
  match p with
  | Some v => v
  | None => EmptyString
  end.

End aws.

Module GetBotInput.
Record t := { Name : option string; VersionOrAlias : option string }.
End GetBotInput.

Module GetBotOutput.
Record t := { Name : option string; Version : option string }.
End GetBotOutput.

Module GetSlotTypeInput.
Record t := { Name : option string; Version : option string }.
End GetSlotTypeInput.

Module GetSlotTypeOutput.
Record t := { Name : option string; Version : option string }.
End GetSlotTypeOutput.

Module BotMetadata.
Record t := { Name : option string; Version : option string }.
End BotMetadata.

Module IntentMetadata.
Record t := { Name : option string; Version : option string }.
End IntentMetadata.

Module SlotTypeMetadata.
Record t := { Name : option string; Version : option string }.
End SlotTypeMetadata.

Module GetBotVersionsInput.
Record t := { Name : option string }.
End GetBotVersionsInput.

Module GetIntentVersionsInput.
Record t := { Name : option string }.
End GetIntentVersionsInput.

Module GetSlotTypeVersionsInput.
Record t := { Name : option string }.
End GetSlotTypeVersionsInput.

Module GetBotVersionsOutput.
Record t := { Bots : list BotMetadata.t; NextToken : option string }.
End GetBotVersionsOutput.

Module GetIntentVersionsOutput.
Record t := { Intents : list IntentMetadata.t; NextToken : option string }.
End GetIntentVersionsOutput.

Module GetSlotTypeVersionsOutput.
Record t := { SlotTypes : list SlotTypeMetadata.t; NextToken : option string }.
End GetSlotTypeVersionsOutput.

(* ================================================================== *)
(** ** Errors *)

(** The request stored in [LastRequest] (an [any] in Go). *)
Inductive Request : Type :=
| GetBotRequest (input : GetBotInput.t)
| GetSlotTypeRequest (input : GetSlotTypeInput.t).

(** The values of Go's [error] interface that occur here; nil is [None] of
    [option error]. *)
#[warnings="-register-all"]
Inductive error : Type :=
| NotFoundException (message : string)        (* awstypes.NotFoundException *)
| ServiceFault (code message : string)        (* any other service or transport error *)
| OperationError (operation : string) (Err : error)  (* a wrapper with Unwrap *)
| NotFoundError (LastError : option error) (LastRequest : Request)  (* retry.NotFoundError *)
| EmptyResultError (LastRequest : Request).   (* tfresource.NewEmptyResultError *)

Module errs.

(** [errors.As] to [*awstypes.NotFoundException] along the [Unwrap] chain. *)
Fixpoint AsNotFoundException (e : error) : bool :=
  match e with
  | NotFoundException _ => true
  | ServiceFault _ _ => false
  | OperationError _ inner => AsNotFoundException inner
  | NotFoundError (Some inner) _ => AsNotFoundException inner
  | NotFoundError None _ => false
  | EmptyResultError _ => false
  end.

(** [errs.IsA[*awstypes.NotFoundException]]: false on a nil error. *)
Definition IsA_NotFoundException (err : option error) : bool :=
  match err with
  | Some e => AsNotFoundException e
  | None => false
  end.

End errs.

Module tfresource.
Definition NewEmptyResultError (lastRequest : Request) : error :=
  EmptyResultError lastRequest.
End tfresource.

(* ================================================================== *)
(** ** The client and its page iterator *)

(** What one page request comes back with: an error, or a page (which the
    iterator may hand over as a nil pointer). *)
Inductive Fetch (P : Type) : Type :=
| FetchErr (e : error)
| FetchPage (page : option P).

Arguments FetchErr {P} e.
Arguments FetchPage {P} page.

(** The service as the finders see it.  A listing operation answers a
    request with the outcomes of its successive page requests, in order. *)
Record Client := {
  GetBot : GetBotInput.t -> option GetBotOutput.t * option error;
  GetSlotType : GetSlotTypeInput.t -> option GetSlotTypeOutput.t * option error;
  GetBotVersions : GetBotVersionsInput.t -> list (Fetch GetBotVersionsOutput.t);
  GetIntentVersions :
    GetIntentVersionsInput.t -> list (Fetch GetIntentVersionsOutput.t);
  GetSlotTypeVersions :
    GetSlotTypeVersionsInput.t -> list (Fetch GetSlotTypeVersionsOutput.t)
}.

Section Pager.
Context {P St : Type}.

(** The page callback: a Go closure [func(page, lastPage) bool] over the
    captured variables [St], written in state-passing style. *)
Definition PageFn := option P -> bool -> St -> St * bool.

(** Modelled from the spec: the page iterators
    [Get*VersionsPagesWithContext] are declared outside src/.  "An injected
    paging capability that yields successive pages until exhaustion or an
    error"; "each page callback receives a page of records and a 'is this
    the last page' flag and returns whether to continue"; a failed page
    fetch is "surfaced immediately, aborts resolution".  The result is the
    captured state after the last callback and the iterator's error. *)
Fixpoint PagesWithContext (rs : list (Fetch P)) (fn : PageFn) (st : St)
  : St * option error :=
  match rs with
  | [] => (st, None)
  | FetchErr e :: _ => (st, Some e)
  | FetchPage page :: rest =>
      let lastPage := match rest with [] => true | _ => false end in
      let '(st', continue) := fn page lastPage st in
      if negb continue || lastPage then (st', None)
      else PagesWithContext rest fn st'
  end.

End Pager.

(* ================================================================== *)
(** ** Package lexmodels: the finders *)

(** The per-kind "latest" version labels.  They are declared outside src/
    and are taken as parameters. *)
Class Consts := {
  BotVersionLatest : string;
  IntentVersionLatest : string;
  SlotTypeVersionLatest : string
}.

(** The literal the source's doc comments name for each of them. *)
Definition LexConsts : Consts :=
  {| BotVersionLatest := "$LATEST";
     IntentVersionLatest := "$LATEST";
     SlotTypeVersionLatest := "$LATEST" |}.

Module lexmodels.
Section Finders.
Context {K : Consts}.

Definition FindBotVersionByName (conn : Client) (name version : string)
  : option GetBotOutput.t * option error :=
  let input := {| GetBotInput.Name := aws.String name;
                  GetBotInput.VersionOrAlias := aws.String version |} in
  let '(output, err) := GetBot conn input in
  if errs.IsA_NotFoundException err then
    (None, Some (NotFoundError err (GetBotRequest input)))
  else
    match err with
    | Some e => (None, Some e)
    | None =>
        match output with
        | None => (None, Some (tfresource.NewEmptyResultError (GetBotRequest input)))
        | Some o => (Some o, None)
        end
    end.

Definition FindSlotTypeVersionByName (conn : Client) (name version : string)
  : option GetSlotTypeOutput.t * option error :=
  let input := {| GetSlotTypeInput.Name := aws.String name;
                  GetSlotTypeInput.Version := aws.String version |} in
  let '(output, err) := GetSlotType conn input in
  if errs.IsA_NotFoundException err then
    (None, Some (NotFoundError err (GetSlotTypeRequest input)))
  else
    match err with
    | Some e => (None, Some e)
    | None =>
        match output with
        | None =>
            (None, Some (tfresource.NewEmptyResultError (GetSlotTypeRequest input)))
        | Some o => (Some o, None)
        end
    end.

(** *** Bots *)

(** One round of [for _, bot := range page.Bots]. *)
Definition botVersionsEach (latestVersion : Z) (bot : BotMetadata.t) : Z :=
  let version := aws.ToString (BotMetadata.Version bot) in
  if String.eqb version BotVersionLatest then latestVersion
  else
    match strconv.Atoi version with
    | None => latestVersion
    | Some version => if version >? latestVersion then version else latestVersion
    end.

(** The closure passed to [GetBotVersionsPagesWithContext]. *)
Definition botVersionsPage : @PageFn GetBotVersionsOutput.t Z :=
  fun page lastPage latestVersion =>
    match page with
    | None => (latestVersion, negb lastPage)
    | Some page =>
        (fold_left botVersionsEach (GetBotVersionsOutput.Bots page) latestVersion,
         negb lastPage)
    end.

Definition FindLatestBotVersionByName (conn : Client) (name : string)
  : string * option error :=
  let input := {| GetBotVersionsInput.Name := aws.String name |} in
  let '(latestVersion, err) :=
    PagesWithContext (GetBotVersions conn input) botVersionsPage 0 in
  match err with
  | Some e => (EmptyString, Some e)
  | None =>
      if latestVersion =? 0 then (BotVersionLatest, None)
      else (strconv.Itoa latestVersion, None)
  end.

(** *** Intents *)

Definition intentVersionsEach (latestVersion : Z) (intent : IntentMetadata.t) : Z :=
  let version := aws.ToString (IntentMetadata.Version intent) in
  if String.eqb version IntentVersionLatest then latestVersion
  else
    match strconv.Atoi version with
    | None => latestVersion
    | Some version => if version >? latestVersion then version else latestVersion
    end.

Definition intentVersionsPage : @PageFn GetIntentVersionsOutput.t Z :=
  fun page lastPage latestVersion =>
    match page with
    | None => (latestVersion, negb lastPage)
    | Some page =>
        (fold_left intentVersionsEach (GetIntentVersionsOutput.Intents page)
           latestVersion,
         negb lastPage)
    end.

Definition FindLatestIntentVersionByName (conn : Client) (name : string)
  : string * option error :=
  let input := {| GetIntentVersionsInput.Name := aws.String name |} in
  let '(latestVersion, err) :=
    PagesWithContext (GetIntentVersions conn input) intentVersionsPage 0 in
  match err with
  | Some e => (EmptyString, Some e)
  | None =>
      if latestVersion =? 0 then (IntentVersionLatest, None)
      else (strconv.Itoa latestVersion, None)
  end.

(** *** Slot types *)

Definition slotTypeVersionsEach (latestVersion : Z) (slot : SlotTypeMetadata.t) : Z :=
  let version := aws.ToString (SlotTypeMetadata.Version slot) in
  if String.eqb version SlotTypeVersionLatest then latestVersion
  else
    match strconv.Atoi version with
    | None => latestVersion
    | Some version => if version >? latestVersion then version else latestVersion
    end.

Definition slotTypeVersionsPage : @PageFn GetSlotTypeVersionsOutput.t Z :=
  fun page lastPage latestVersion =>
    match page with
    | None => (latestVersion, negb lastPage)
    | Some page =>
        (fold_left slotTypeVersionsEach (GetSlotTypeVersionsOutput.SlotTypes page)
           latestVersion,
         negb lastPage)
    end.

Definition FindLatestSlotTypeVersionByName (conn : Client) (name : string)
  : string * option error :=
  let input := {| GetSlotTypeVersionsInput.Name := aws.String name |} in
  let '(latestVersion, err) :=
    PagesWithContext (GetSlotTypeVersions conn input) slotTypeVersionsPage 0 in
  match err with
  | Some e => (EmptyString, Some e)
  | None =>
      if latestVersion =? 0 then (SlotTypeVersionLatest, None)
      else (strconv.Itoa latestVersion, None)
  end.

End Finders.
End lexmodels.

(* ================================================================== *)
(** ** Vocabulary of the specification *)

Module decimal.
Import strconv.

Definition isDigit (ch : ascii) : bool :=
  match digitValue ch with Some _ => true | None => false end.

Fixpoint allDigits (s : string) : bool :=
  match s with
  | EmptyString => true
  | String ch rest => isDigit ch && allDigits rest
  end.

(** A non-negative decimal integer literal without leading zeros. *)
Definition isCanonicalDecimal (s : string) : bool :=
  match s with
  | EmptyString => false
  | String ch rest =>
      isDigit ch && allDigits rest &&
      (negb (Ascii.eqb ch "0") || String.eqb rest EmptyString)
  end.

End decimal.

Module Resolution.

Section ResultSets.
Context {P : Type}.

(** The error of the first page fetch that fails, if any does. *)
Fixpoint fetchError (rs : list (Fetch P)) : option error :=
  match rs with
  | [] => None
  | FetchErr e :: _ => Some e
  | FetchPage _ :: rest => fetchError rest
  end.

(** The pages fetched before any fetch fails. *)
Fixpoint delivered (rs : list (Fetch P)) : list (option P) :=
  match rs with
  | [] => []
  | FetchErr _ :: _ => []
  | FetchPage page :: rest => page :: delivered rest
  end.

End ResultSets.

(** A page seen as its version labels only; a nil page stays nil. *)
Definition LabelPage := list string.

Definition mapFetch {P Q : Type} (f : P -> Q) (x : Fetch P) : Fetch Q :=
  match x with
  | FetchErr e => FetchErr e
  | FetchPage page => FetchPage (option_map f page)
  end.

Definition botPageLabels (page : GetBotVersionsOutput.t) : LabelPage :=
  map (fun bot => aws.ToString (BotMetadata.Version bot))
      (GetBotVersionsOutput.Bots page).

Definition intentPageLabels (page : GetIntentVersionsOutput.t) : LabelPage :=
  map (fun intent => aws.ToString (IntentMetadata.Version intent))
      (GetIntentVersionsOutput.Intents page).

Definition slotTypePageLabels (page : GetSlotTypeVersionsOutput.t) : LabelPage :=
  map (fun slot => aws.ToString (SlotTypeMetadata.Version slot))
      (GetSlotTypeVersionsOutput.SlotTypes page).

Definition botView := map (mapFetch botPageLabels).
Definition intentView := map (mapFetch intentPageLabels).
Definition slotTypeView := map (mapFetch slotTypePageLabels).

(** The labels of the records of one page; a nil page has none. *)
Definition pageLabels (page : option LabelPage) : list string :=
  match page with
  | Some labels => labels
  | None => []
  end.

(** All version labels of a result set, page after page. *)
Definition labelsOf (L : list (Fetch LabelPage)) : list string :=
  List.concat (map pageLabels (delivered L)).

(** The numeric version labels observed: the labels that are not the
    sentinel and parse as a base-10 integer, as the integers they parse to. *)
Definition observed (sentinel : string) (labels : list string) : list Z :=
  flat_map
    (fun label =>
       if String.eqb label sentinel then []
       else match strconv.Atoi label with
            | Some v => [v]
            | None => []
            end)
    labels.

(** The resolution template shared by the three resource kinds: the fold
    "max of parsed integers" from 0 over all pages, 0 standing for "none". *)
Definition LatestVersionResolver (sentinel : string) (L : list (Fetch LabelPage))
  : string * option error :=
  match fetchError L with
  | Some e => (EmptyString, Some e)
  | None =>
      let latest := fold_left Z.max (observed sentinel (labelsOf L)) 0 in
      (if latest =? 0 then sentinel else strconv.Itoa latest, None)
  end.

(** The contract in the specification's words: "If no numeric version was
    ever observed, return the sentinel label; otherwise return the maximum
    integer re-encoded as its decimal string." *)
Definition resolvedVersionAsStated (sentinel : string) (labels : list string)
  : string :=
  match observed sentinel labels with
  | [] => sentinel
  | v :: vs => strconv.Itoa (fold_left Z.max vs v)
  end.

(** The records whose label parses, i.e. a page without its malformed
    records. *)
Definition dropMalformedBots (x : Fetch GetBotVersionsOutput.t)
  : Fetch GetBotVersionsOutput.t :=
  mapFetch
    (fun page =>
       {| GetBotVersionsOutput.Bots :=
            filter
              (fun bot =>
                 match strconv.Atoi (aws.ToString (BotMetadata.Version bot)) with
                 | Some _ => true
                 | None => false
                 end)
              (GetBotVersionsOutput.Bots page);
          GetBotVersionsOutput.NextToken := GetBotVersionsOutput.NextToken page |})
    x.

(** The result sets the service holds for a resource name, as the finders
    request them. *)
Definition botVersionsOf (conn : Client) (name : string) :=
  GetBotVersions conn {| GetBotVersionsInput.Name := aws.String name |}.

Definition intentVersionsOf (conn : Client) (name : string) :=
  GetIntentVersions conn {| GetIntentVersionsInput.Name := aws.String name |}.

Definition slotTypeVersionsOf (conn : Client) (name : string) :=
  GetSlotTypeVersions conn {| GetSlotTypeVersionsInput.Name := aws.String name |}.

(** The version labels of all bot records the service holds for a name. *)
Definition botLabels (conn : Client) (name : string) : list string :=
  labelsOf (botView (botVersionsOf conn name)).

(** The version label of a bot record. *)
Definition botLabel (bot : BotMetadata.t) : string :=
  aws.ToString (BotMetadata.Version bot).

End Resolution.

(* ================================================================== *)
(** ** Sample services *)

Module Samples.

Definition bot (version : string) : BotMetadata.t :=
  {| BotMetadata.Name := Some "OrderFlowers";
     BotMetadata.Version := Some version |}.

Definition intent (version : string) : IntentMetadata.t :=
  {| IntentMetadata.Name := Some "OrderFlowers";
     IntentMetadata.Version := Some version |}.

Definition slotType (version : string) : SlotTypeMetadata.t :=
  {| SlotTypeMetadata.Name := Some "OrderFlowers";
     SlotTypeMetadata.Version := Some version |}.

Definition botPage (versions : list string) : option GetBotVersionsOutput.t :=
  Some {| GetBotVersionsOutput.Bots := map bot versions;
          GetBotVersionsOutput.NextToken := None |}.

Definition intentPage (versions : list string) : option GetIntentVersionsOutput.t :=
  Some {| GetIntentVersionsOutput.Intents := map intent versions;
          GetIntentVersionsOutput.NextToken := None |}.

Definition slotTypePage (versions : list string)
  : option GetSlotTypeVersionsOutput.t :=
  Some {| GetSlotTypeVersionsOutput.SlotTypes := map slotType versions;
          GetSlotTypeVersionsOutput.NextToken := None |}.

(** A service that lists the given pages of version labels for every kind
    and every name, and has no single item. *)
Definition listing (L : list (Fetch (list string))) : Client :=
  {| GetBot := fun _ => (None, None);
     GetSlotType := fun _ => (None, None);
     GetBotVersions := fun _ =>
       map (fun x => match x with
                     | FetchErr e => FetchErr e
                     | FetchPage None => FetchPage None
                     | FetchPage (Some vs) => FetchPage (botPage vs)
                     end) L;
     GetIntentVersions := fun _ =>
       map (fun x => match x with
                     | FetchErr e => FetchErr e
                     | FetchPage None => FetchPage None
                     | FetchPage (Some vs) => FetchPage (intentPage vs)
                     end) L;
     GetSlotTypeVersions := fun _ =>
       map (fun x => match x with
                     | FetchErr e => FetchErr e
                     | FetchPage None => FetchPage None
                     | FetchPage (Some vs) => FetchPage (slotTypePage vs)
                     end) L |}.

(** A service whose single-item calls answer with the given pair. *)
Definition answering (output : option GetBotOutput.t)
           (slotOutput : option GetSlotTypeOutput.t) (err : option error) : Client :=
  {| GetBot := fun _ => (output, err);
     GetSlotType := fun _ => (slotOutput, err);
     GetBotVersions := fun _ => [];
     GetIntentVersions := fun _ => [];
     GetSlotTypeVersions := fun _ => [] |}.

Definition throttled : error := ServiceFault "ThrottlingException" "rate exceeded".

Definition missing : error :=
  OperationError "GetBot" (NotFoundException "no such resource").

Definition orderFlowers : GetBotOutput.t :=
  {| GetBotOutput.Name := Some "OrderFlowers"; GetBotOutput.Version := Some "3" |}.

Definition flowerTypes : GetSlotTypeOutput.t :=
  {| GetSlotTypeOutput.Name := Some "FlowerTypes";
     GetSlotTypeOutput.Version := Some "1" |}.

End Samples.


(* ================================================================== *)
(** ** Further vocabulary: records that the loop passes over *)

Module Passing.
Import Resolution.

(** A page without the records whose label is the sentinel. *)
Definition dropSentinelBots (sentinel : string) (x : Fetch GetBotVersionsOutput.t)
  : Fetch GetBotVersionsOutput.t :=
  mapFetch
    (fun page =>
       {| GetBotVersionsOutput.Bots :=
            filter (fun bot => negb (String.eqb (botLabel bot) sentinel))
                   (GetBotVersionsOutput.Bots page);
          GetBotVersionsOutput.NextToken := GetBotVersionsOutput.NextToken page |})
    x.

(** The version labels of all intent and slot type records the service
    holds for a name. *)
Definition intentLabels (conn : Client) (name : string) : list string :=
  labelsOf (intentView (intentVersionsOf conn name)).

Definition slotTypeLabels (conn : Client) (name : string) : list string :=
  labelsOf (slotTypeView (slotTypeVersionsOf conn name)).

End Passing.

(* ================================================================== *)
(** ** Facts about strconv *)

Module strconv_facts.
Import strconv decimal.

Lemma small_cases (d : Z) :
  0 <= d < 10 ->
  d = 0 \/ d = 1 \/ d = 2 \/ d = 3 \/ d = 4 \/
  d = 5 \/ d = 6 \/ d = 7 \/ d = 8 \/ d = 9.
Proof. lia. Qed.

Lemma digitValue_digitChar (d : Z) :
  0 <= d < 10 -> digitValue (digitChar d) = Some d.
Proof.
  intros H. destruct (small_cases H) as [E|[E|[E|[E|[E|[E|[E|[E|[E|E]]]]]]]]];
    subst d; reflexivity.
Qed.

Lemma digitChar_nonzero (d : Z) :
  1 <= d < 10 -> Ascii.eqb (digitChar d) "0" = false.
Proof.
  intros H. assert (H' : 0 <= d < 10) by lia.
  destruct (small_cases H') as [E|[E|[E|[E|[E|[E|[E|[E|[E|E]]]]]]]]];
    subst d; try reflexivity; lia.
Qed.

Lemma digitChar_not_sign (d : Z) :
  0 <= d < 10 -> isSign (digitChar d) = false.
Proof.
  intros H. destruct (small_cases H) as [E|[E|[E|[E|[E|[E|[E|[E|[E|E]]]]]]]]];
    subst d; reflexivity.
Qed.

Lemma isDigit_digitChar (d : Z) : 0 <= d < 10 -> isDigit (digitChar d) = true.
Proof. intros H. unfold isDigit. now rewrite digitValue_digitChar. Qed.

Lemma digitValue_range (ch : ascii) (d : Z) :
  digitValue ch = Some d -> 0 <= d < 10.
Proof.
  unfold digitValue.
  destruct ((48 <=? Z.of_N (N_of_ascii ch)) && (Z.of_N (N_of_ascii ch) <=? 57))
    eqn:E; [|discriminate].
  intros [= <-]. apply andb_prop in E. lia.
Qed.

(** Parsing what [formatDigits] wrote gives the number back and goes on
    with the text that was already there. *)
Lemma parse_formatDigits (k : nat) :
  forall u a, 0 <= u < 10 ^ Z.of_nat k -> (0 < k)%nat ->
    parseDigits 0 (formatDigits k u a) = parseDigits u a.
Proof.
  induction k as [|k IH]; intros u a Hu Hk; [lia|].
  cbn [formatDigits]. destruct (u <? 10) eqn:E.
  - apply Z.ltb_lt in E. cbn [parseDigits].
    rewrite digitValue_digitChar by lia. reflexivity.
  - apply Z.ltb_ge in E.
    rewrite Nat2Z.inj_succ, Z.pow_succ_r in Hu by lia.
    destruct k as [|k'].
    + cbn in Hu. lia.
    + assert (Hq : 0 <= u / 10 < 10 ^ Z.of_nat (S k')).
      { split; [apply Z.div_pos; lia | apply Z.div_lt_upper_bound; lia]. }
      rewrite IH by (assumption || lia).
      cbn [parseDigits].
      rewrite digitValue_digitChar by (apply Z.mod_pos_bound; lia).
      f_equal. pose proof (Z.div_mod u 10). lia.
Qed.

(** The first byte [formatDigits] writes. *)
Lemma formatDigits_shape (k : nat) :
  forall u a, 0 <= u -> (0 < k)%nat -> allDigits a = true ->
    exists ch rest,
      formatDigits k u a = String ch rest /\
      isDigit ch = true /\ allDigits rest = true /\ isSign ch = false /\
      (0 < u -> 0 < u < 10 ^ Z.of_nat k -> Ascii.eqb ch "0" = false).
Proof.
  induction k as [|k IH]; intros u a Hu Hk Ha; [lia|].
  cbn [formatDigits]. destruct (u <? 10) eqn:E.
  - apply Z.ltb_lt in E. exists (digitChar u), a.
    repeat split; auto using isDigit_digitChar, digitChar_not_sign.
    intros ? _. apply digitChar_nonzero; lia.
  - apply Z.ltb_ge in E.
    assert (Hm : 0 <= u mod 10 < 10) by (apply Z.mod_pos_bound; lia).
    destruct k as [|k'].
    + exists (digitChar (u mod 10)), a.
      repeat split; auto using isDigit_digitChar, digitChar_not_sign.
      intros _ B. cbn in B. lia.
    + destruct (IH (u / 10) (String (digitChar (u mod 10)) a))
        as (ch & rest & E1 & D1 & D2 & D3 & D4).
      * apply Z.div_pos; lia.
      * lia.
      * cbn [allDigits]. now rewrite isDigit_digitChar.
      * exists ch, rest. repeat split; auto.
        intros _ B. rewrite Nat2Z.inj_succ, Z.pow_succ_r in B by lia.
        apply D4.
        -- apply Z.div_str_pos; lia.
        -- split; [apply Z.div_str_pos; lia|].
           apply Z.div_lt_upper_bound; lia.
Qed.

Lemma int_fits_rounds (i : Z) : minInt <= i <= maxInt -> Z.abs i < 10 ^ Z.of_nat 20.
Proof.
  unfold minInt, maxInt, intSize. intros H.
  change (10 ^ Z.of_nat 20) with 100000000000000000000.
  change (2 ^ (64 - 1)) with 9223372036854775808 in H. lia.
Qed.

(** [Atoi] reads back what [Itoa] prints. *)
Lemma Atoi_Itoa (i : Z) : minInt <= i <= maxInt -> Atoi (Itoa i) = Some i.
Proof.
  intros Hr. pose proof (int_fits_rounds Hr) as Hb.
  unfold Itoa. destruct (i <? 0) eqn:E.
  - apply Z.ltb_lt in E.
    destruct (@formatDigits_shape 20 (- i) EmptyString) as (ch & rest & E1 & _);
      [lia | lia | reflexivity |].
    unfold Atoi. change (isSign "-") with true. cbn iota.
    pose proof (@parse_formatDigits 20 (- i) EmptyString) as P.
    rewrite E1 in *. rewrite P by lia. cbn [parseDigits].
    change (Ascii.eqb "-" "-") with true. cbn iota.
    rewrite Z.opp_involutive.
    destruct ((minInt <=? i) && (i <=? maxInt)) eqn:R; [reflexivity|].
    apply andb_false_iff in R. lia.
  - apply Z.ltb_ge in E.
    destruct (@formatDigits_shape 20 i EmptyString)
      as (ch & rest & E1 & D1 & _ & D3 & _); [lia | lia | reflexivity |].
    pose proof (@parse_formatDigits 20 i EmptyString) as P.
    rewrite E1 in *. unfold Atoi. rewrite D3, P by lia. cbn [parseDigits].
    assert (Hm : Ascii.eqb ch "-" = false).
    { unfold isSign in D3. now apply orb_false_iff in D3. }
    rewrite Hm.
    destruct ((minInt <=? i) && (i <=? maxInt)) eqn:R; [reflexivity|].
    apply andb_false_iff in R. lia.
Qed.

(** [Atoi] only yields values of type [int]. *)
Lemma Atoi_range (s : string) (v : Z) : Atoi s = Some v -> minInt <= v <= maxInt.
Proof.
  unfold Atoi. destruct s as [|s0 tl]; [discriminate|].
  destruct (if isSign s0 then tl else String s0 tl); [discriminate|].
  destruct (parseDigits 0 _); [|discriminate].
  match goal with |- context [if ?c then Some ?x else None] =>
    destruct c eqn:R; [|discriminate] end.
  intros [= <-]. apply andb_prop in R. lia.
Qed.

(** A positive [int] prints as a canonical decimal literal. *)
Lemma Itoa_canonical (i : Z) :
  0 < i <= maxInt -> isCanonicalDecimal (Itoa i) = true.
Proof.
  intros H. unfold Itoa.
  assert (E : (i <? 0) = false) by (apply Z.ltb_ge; lia). rewrite E.
  assert (Hr : minInt <= i <= maxInt).
  { unfold minInt, maxInt, intSize in *.
    change (2 ^ (64 - 1)) with 9223372036854775808 in *. lia. }
  pose proof (int_fits_rounds Hr) as Hb.
  destruct (@formatDigits_shape 20 i EmptyString)
    as (ch & rest & E1 & D1 & D2 & _ & D4); [lia | lia | reflexivity |].
  rewrite E1. cbn [isCanonicalDecimal]. rewrite D1, D2, D4 by lia. reflexivity.
Qed.

End strconv_facts.

(* ================================================================== *)
(** ** Facts about the page iterator and the running maximum *)

Module Resolution_facts.
Import Resolution.

Section Iterator.
Context {P St : Type}.

(** A callback that asks to go on until the last page makes the iterator
    hand over every page fetched before the first failure, in order. *)
Lemma PagesWithContext_exhaustive (f : option P -> St -> St) (fn : @PageFn P St) :
  (forall page lastPage st, fn page lastPage st = (f page st, negb lastPage)) ->
  forall rs st,
    PagesWithContext rs fn st =
    (fold_left (fun s page => f page s) (delivered rs) st, fetchError rs).
Proof.
  intros Hfn. induction rs as [|[e|page] rest IH]; intros st; cbn; auto.
  rewrite Hfn. destruct rest as [|x rest']; [reflexivity|].
  cbn [negb orb]. apply IH.
Qed.

Lemma fetchError_success (pages : list (option P)) :
  fetchError (map FetchPage pages) = None.
Proof. induction pages; cbn; auto. Qed.

Lemma delivered_success (pages : list (option P)) :
  delivered (map FetchPage pages) = pages.
Proof. induction pages; cbn; congruence. Qed.

Lemma fetchError_first (pre : list (option P)) (e : error) (post : list (Fetch P)) :
  fetchError (map FetchPage pre ++ FetchErr e :: post) = Some e.
Proof. induction pre; cbn; auto. Qed.

Lemma fetchError_mapFetch {Q : Type} (g : P -> Q) (rs : list (Fetch P)) :
  fetchError (map (mapFetch g) rs) = fetchError rs.
Proof. induction rs as [|[e|page] rest IH]; cbn; auto. Qed.

Lemma delivered_mapFetch {Q : Type} (g : P -> Q) (rs : list (Fetch P)) :
  delivered (map (mapFetch g) rs) = map (option_map g) (delivered rs).
Proof. induction rs as [|[e|page] rest IH]; cbn; congruence. Qed.

End Iterator.

Section RunningMaximum.

Lemma fold_max_ge_init (vs : list Z) : forall init, init <= fold_left Z.max vs init.
Proof.
  induction vs as [|v vs IH]; intros init; cbn; [lia|].
  specialize (IH (Z.max init v)). lia.
Qed.

Lemma fold_max_ge (vs : list Z) :
  forall init v, In v vs -> v <= fold_left Z.max vs init.
Proof.
  induction vs as [|w vs IH]; intros init v [].
  - subst w. cbn. pose proof (fold_max_ge_init vs (Z.max init v)). lia.
  - cbn. now apply IH.
Qed.

Lemma fold_max_le (vs : list Z) (b : Z) :
  (forall v, In v vs -> v <= b) ->
  forall init, init <= b -> fold_left Z.max vs init <= b.
Proof.
  induction vs as [|w vs IH]; intros Hb init Hi; cbn; auto.
  apply IH.
  - intros v Hv. apply Hb. now right.
  - specialize (Hb w (or_introl eq_refl)). lia.
Qed.

Lemma fold_max_in (vs : list Z) :
  forall init, fold_left Z.max vs init = init \/ In (fold_left Z.max vs init) vs.
Proof.
  induction vs as [|w vs IH]; intros init; cbn; auto.
  destruct (IH (Z.max init w)) as [E|E]; [|now right; right].
  rewrite E. destruct (Z.max_spec init w) as [[_ M]|[_ M]]; rewrite M; auto.
Qed.

Lemma observed_app (sentinel : string) (xs ys : list string) :
  observed sentinel (xs ++ ys) = observed sentinel xs ++ observed sentinel ys.
Proof. apply flat_map_app. Qed.

Lemma observed_cons (sentinel : string) (x : string) (xs : list string) :
  observed sentinel (x :: xs) = observed sentinel [x] ++ observed sentinel xs.
Proof. apply (observed_app sentinel [x] xs). Qed.

(** A numeric label other than the sentinel is observed. *)
Lemma observed_numeric (sentinel : string) (x : string) (v : Z) :
  x <> sentinel -> strconv.Atoi x = Some v -> observed sentinel [x] = [v].
Proof.
  intros Hne H. unfold observed. cbn. rewrite H.
  destruct (String.eqb_spec x sentinel); [contradiction|reflexivity].
Qed.

Lemma observed_single (sentinel : string) (x : string) :
  observed sentinel [x] = [] \/
  observed sentinel [x] =
    match strconv.Atoi x with Some v => [v] | None => [] end.
Proof.
  unfold observed. cbn. destruct (String.eqb x sentinel); auto.
  right. now destruct (strconv.Atoi x).
Qed.

(** A label that does not parse is not observed. *)
Lemma observed_malformed (sentinel : string) (x : string) :
  strconv.Atoi x = None -> observed sentinel [x] = [].
Proof.
  intros H. unfold observed. cbn. rewrite H. now destruct (String.eqb _ _).
Qed.

Lemma observed_In (sentinel : string) (labels : list string) (v : Z) :
  In v (observed sentinel labels) <->
  exists label,
    In label labels /\ label <> sentinel /\ strconv.Atoi label = Some v.
Proof.
  unfold observed. rewrite in_flat_map. split.
  - intros (label & Hin & Hv). exists label. split; auto.
    destruct (String.eqb_spec label sentinel); [contradiction|].
    destruct (strconv.Atoi label); [|contradiction].
    destruct Hv as [<-|[]]. auto.
  - intros (label & Hin & Hne & Hv). exists label. split; auto.
    destruct (String.eqb_spec label sentinel); [contradiction|].
    rewrite Hv. now left.
Qed.

Lemma observed_range (sentinel : string) (labels : list string) (v : Z) :
  In v (observed sentinel labels) -> strconv.minInt <= v <= strconv.maxInt.
Proof.
  intros H. apply observed_In in H as (label & _ & _ & Hv).
  eapply strconv_facts.Atoi_range; eauto.
Qed.

(** The loop over the records of a page is the running maximum of the
    numeric labels observed among them. *)
Lemma each_fold {R : Type} (label : R -> string) (sentinel : string)
      (each : Z -> R -> Z) :
  (forall latest r,
     each latest r =
     if String.eqb (label r) sentinel then latest
     else match strconv.Atoi (label r) with
          | None => latest
          | Some v => if v >? latest then v else latest
          end) ->
  forall records latest,
    fold_left each records latest =
    fold_left Z.max (observed sentinel (map label records)) latest.
Proof.
  intros Heach. induction records as [|r records IH]; intros latest; cbn; auto.
  rewrite fold_left_app, IH, Heach. f_equal.
  destruct (String.eqb (label r) sentinel); cbn; auto.
  destruct (strconv.Atoi (label r)) as [v|]; cbn; auto.
  destruct (v >? latest) eqn:E; lia.
Qed.

End RunningMaximum.

Section Template.
Context {P R : Type}.
Variable records : P -> list R.
Variable label : R -> string.
Variable sentinel : string.
Variable each : Z -> R -> Z.
Variable fn : @PageFn P Z.

Hypothesis each_eq :
  forall latest r,
    each latest r =
    if String.eqb (label r) sentinel then latest
    else match strconv.Atoi (label r) with
         | None => latest
         | Some v => if v >? latest then v else latest
         end.

Hypothesis fn_eq :
  forall page lastPage latest,
    fn page lastPage latest =
    (match page with
     | None => latest
     | Some pg => fold_left each (records pg) latest
     end, negb lastPage).

Let view := map (mapFetch (fun pg => map label (records pg))).

Lemma pages_fold (pages : list (option P)) :
  forall latest,
    fold_left
      (fun s page =>
         match page with
         | None => s
         | Some pg => fold_left each (records pg) s
         end) pages latest =
    fold_left Z.max
      (observed sentinel
         (List.concat
            (map pageLabels
               (map (option_map (fun pg => map label (records pg))) pages))))
      latest.
Proof.
  induction pages as [|[pg|] pages IH]; intros latest;
    cbn [fold_left map option_map pageLabels List.concat app]; auto.
  rewrite observed_app, fold_left_app, IH.
  now rewrite (each_fold label sentinel each each_eq).
Qed.

(** A resolver written after the template computes the template. *)
Lemma resolver_template (rs : list (Fetch P)) :
  (let '(latestVersion, err) := PagesWithContext rs fn 0 in
   match err with
   | Some e => (EmptyString, Some e)
   | None =>
       if latestVersion =? 0 then (sentinel, None)
       else (strconv.Itoa latestVersion, None)
   end) = LatestVersionResolver sentinel (view rs).
Proof.
  rewrite (PagesWithContext_exhaustive _ fn fn_eq).
  unfold LatestVersionResolver, view, labelsOf.
  rewrite fetchError_mapFetch, delivered_mapFetch.
  destruct (fetchError rs); [reflexivity|].
  rewrite pages_fold. now destruct (_ =? 0).
Qed.

End Template.

Section Outcomes.
Variable sentinel : string.
Variable L : list (Fetch LabelPage).
Hypothesis success : fetchError L = None.

Lemma resolver_sentinel :
  (forall v, In v (observed sentinel (labelsOf L)) -> v <= 0) ->
  LatestVersionResolver sentinel L = (sentinel, None).
Proof.
  intros Hle. unfold LatestVersionResolver. rewrite success.
  pose proof (fold_max_le _ Hle (Z.le_refl 0)) as U.
  pose proof (fold_max_ge_init (observed sentinel (labelsOf L)) 0) as V.
  replace (fold_left Z.max (observed sentinel (labelsOf L)) 0) with 0 by lia.
  reflexivity.
Qed.

Lemma resolver_maximum (m : Z) :
  In m (observed sentinel (labelsOf L)) -> 0 < m ->
  (forall v, In v (observed sentinel (labelsOf L)) -> v <= m) ->
  LatestVersionResolver sentinel L = (strconv.Itoa m, None).
Proof.
  intros Hin Hpos Hmax. unfold LatestVersionResolver. rewrite success.
  pose proof (fold_max_ge _ 0 _ Hin) as U.
  assert (V : fold_left Z.max (observed sentinel (labelsOf L)) 0 <= m)
    by (apply fold_max_le; auto; lia).
  replace (fold_left Z.max (observed sentinel (labelsOf L)) 0) with m by lia.
  destruct (m =? 0) eqn:E; [lia|reflexivity].
Qed.

End Outcomes.

(** What a successful resolution can be: the sentinel when the running
    maximum stayed at 0, else a positive [int] that bounds every observed
    numeric label, printed by [Itoa]. *)
Lemma resolver_success_cases (sentinel : string) (L : list (Fetch LabelPage))
      (s : string) :
  LatestVersionResolver sentinel L = (s, None) ->
  (s = sentinel /\ forall v, In v (observed sentinel (labelsOf L)) -> v <= 0) \/
  (exists m, s = strconv.Itoa m /\ 0 < m <= strconv.maxInt /\
             In m (observed sentinel (labelsOf L)) /\
             forall v, In v (observed sentinel (labelsOf L)) -> v <= m).
Proof.
  unfold LatestVersionResolver. destruct (fetchError L); [discriminate|].
  set (vs := observed sentinel (labelsOf L)).
  pose proof (fold_max_ge_init vs 0) as G.
  destruct (fold_left Z.max vs 0 =? 0) eqn:E; intros [= <-].
  - left. split; auto. intros v Hv. pose proof (fold_max_ge vs 0 v Hv). lia.
  - right. exists (fold_left Z.max vs 0).
    destruct (fold_max_in vs 0) as [F|F]; [lia|].
    pose proof (observed_range _ _ _ F).
    repeat split; auto; try lia. intros v Hv. now apply fold_max_ge.
Qed.

End Resolution_facts.

(* ================================================================== *)
(** ** The three resolvers follow the template *)

Module lexmodels_facts.
Import Resolution Resolution_facts lexmodels.

Section Kinds.
Context {K : Consts}.

Lemma FindLatestBotVersionByName_template (conn : Client) (name : string) :
  FindLatestBotVersionByName conn name =
  LatestVersionResolver BotVersionLatest (botView (botVersionsOf conn name)).
Proof.
  unfold FindLatestBotVersionByName, botVersionsOf, botView, botPageLabels.
  apply (resolver_template GetBotVersionsOutput.Bots
           (fun bot => aws.ToString (BotMetadata.Version bot))
           BotVersionLatest botVersionsEach botVersionsPage).
  - reflexivity.
  - intros [pg|] lastPage latest; reflexivity.
Qed.

Lemma FindLatestIntentVersionByName_template (conn : Client) (name : string) :
  FindLatestIntentVersionByName conn name =
  LatestVersionResolver IntentVersionLatest
    (intentView (intentVersionsOf conn name)).
Proof.
  unfold FindLatestIntentVersionByName, intentVersionsOf, intentView,
    intentPageLabels.
  apply (resolver_template GetIntentVersionsOutput.Intents
           (fun intent => aws.ToString (IntentMetadata.Version intent))
           IntentVersionLatest intentVersionsEach intentVersionsPage).
  - reflexivity.
  - intros [pg|] lastPage latest; reflexivity.
Qed.

Lemma FindLatestSlotTypeVersionByName_template (conn : Client) (name : string) :
  FindLatestSlotTypeVersionByName conn name =
  LatestVersionResolver SlotTypeVersionLatest
    (slotTypeView (slotTypeVersionsOf conn name)).
Proof.
  unfold FindLatestSlotTypeVersionByName, slotTypeVersionsOf, slotTypeView,
    slotTypePageLabels.
  apply (resolver_template GetSlotTypeVersionsOutput.SlotTypes
           (fun slot => aws.ToString (SlotTypeMetadata.Version slot))
           SlotTypeVersionLatest slotTypeVersionsEach slotTypeVersionsPage).
  - reflexivity.
  - intros [pg|] lastPage latest; reflexivity.
Qed.

End Kinds.

Lemma botView_success (pages : list (option GetBotVersionsOutput.t)) :
  fetchError (botView (map FetchPage pages)) = None.
Proof.
  unfold botView. rewrite fetchError_mapFetch. apply fetchError_success.
Qed.

(** The labels of a result set are the labels of the records on its pages. *)
Lemma labelsOf_botView_In (pages : list (option GetBotVersionsOutput.t))
      (label : string) :
  In label (labelsOf (botView (map FetchPage pages))) <->
  exists page bot,
    In (Some page) pages /\ In bot (GetBotVersionsOutput.Bots page) /\
    botLabel bot = label.
Proof.
  unfold labelsOf, botView. rewrite delivered_mapFetch, delivered_success.
  rewrite in_concat. split.
  - intros (ls & Hls & Hin). rewrite map_map in Hls.
    apply in_map_iff in Hls as ([page|] & <- & Hp); cbn in Hin; [|contradiction].
    apply in_map_iff in Hin as (bot & <- & Hb). now exists page, bot.
  - intros (page & bot & Hp & Hb & <-).
    exists (botPageLabels page). split.
    + rewrite map_map. apply in_map_iff. now exists (Some page).
    + unfold botPageLabels. apply in_map_iff. now exists bot.
Qed.

Lemma observed_filter_parsed (sentinel : string) (bots : list BotMetadata.t) :
  observed sentinel
    (map botLabel
       (filter (fun bot => match strconv.Atoi (botLabel bot) with
                           | Some _ => true
                           | None => false
                           end) bots)) =
  observed sentinel (map botLabel bots).
Proof.
  induction bots as [|bot bots IH]; [reflexivity|].
  cbn [filter map]. destruct (strconv.Atoi (botLabel bot)) eqn:E.
  - cbn [map].
    rewrite (observed_cons sentinel (botLabel bot) (map botLabel bots)), <- IH.
    apply observed_cons.
  - now rewrite (observed_cons sentinel (botLabel bot) (map botLabel bots)),
      (observed_malformed _ _ E).
Qed.

(** Pages without their malformed records resolve alike. *)
Lemma resolver_dropMalformed (sentinel : string)
      (rs : list (Fetch GetBotVersionsOutput.t)) :
  LatestVersionResolver sentinel (botView (map dropMalformedBots rs)) =
  LatestVersionResolver sentinel (botView rs).
Proof.
  unfold LatestVersionResolver, botView, dropMalformedBots.
  rewrite !fetchError_mapFetch.
  replace (observed sentinel (labelsOf (map (mapFetch botPageLabels)
             (map (mapFetch _) rs))))
    with (observed sentinel (labelsOf (map (mapFetch botPageLabels) rs)));
    [reflexivity|].
  unfold labelsOf.
  induction rs as [|[e|[pg|]] rest IH];
    cbn [map mapFetch delivered option_map pageLabels List.concat]; auto.
  rewrite !observed_app, IH. f_equal.
  unfold botPageLabels. cbn [GetBotVersionsOutput.Bots].
  symmetry. apply observed_filter_parsed.
Qed.

(** One malformed record more or less on some page does not change what is
    observed, nor which fetch fails. *)
Lemma view_without_record (sentinel : string)
      (pre post : list (Fetch GetBotVersionsOutput.t))
      (before after : list BotMetadata.t) (r : BotMetadata.t)
      (token : option string) :
  strconv.Atoi (botLabel r) = None ->
  let rs :=
    pre ++ FetchPage (Some
      {| GetBotVersionsOutput.Bots := before ++ r :: after;
         GetBotVersionsOutput.NextToken := token |}) :: post in
  let rs' :=
    pre ++ FetchPage (Some
      {| GetBotVersionsOutput.Bots := before ++ after;
         GetBotVersionsOutput.NextToken := token |}) :: post in
  fetchError (botView rs) = fetchError (botView rs') /\
  observed sentinel (labelsOf (botView rs)) =
  observed sentinel (labelsOf (botView rs')).
Proof.
  intros Hr. cbv zeta. unfold botView, labelsOf. unfold botLabel in Hr.
  induction pre as [|[e|pg] pre [IH1 IH2]];
    cbn [app map mapFetch fetchError delivered option_map pageLabels List.concat].
  - split; [reflexivity|].
    unfold botPageLabels at 1 3. cbn [GetBotVersionsOutput.Bots].
    rewrite !map_app. cbn [map]. rewrite !observed_app.
    rewrite (observed_cons sentinel (aws.ToString (BotMetadata.Version r))).
    now rewrite (observed_malformed sentinel _ Hr).
  - auto.
  - split; [exact IH1|]. rewrite !observed_app. now f_equal.
Qed.

Lemma resolver_without_record (sentinel : string)
      (pre post : list (Fetch GetBotVersionsOutput.t))
      (before after : list BotMetadata.t) (r : BotMetadata.t)
      (token : option string) :
  strconv.Atoi (botLabel r) = None ->
  LatestVersionResolver sentinel
    (botView (pre ++ FetchPage (Some
       {| GetBotVersionsOutput.Bots := before ++ r :: after;
          GetBotVersionsOutput.NextToken := token |}) :: post)) =
  LatestVersionResolver sentinel
    (botView (pre ++ FetchPage (Some
       {| GetBotVersionsOutput.Bots := before ++ after;
          GetBotVersionsOutput.NextToken := token |}) :: post)).
Proof.
  intros Hr.
  destruct (@view_without_record sentinel pre post before after r token Hr)
    as [E1 E2].
  unfold LatestVersionResolver. now rewrite E1, E2.
Qed.

End lexmodels_facts.

(* ================================================================== *)
(** ** The specification's claims about the finders *)

Module lexmodels_spec.
Import Resolution Resolution_facts lexmodels lexmodels_facts.

Section Claims.
Context {K : Consts}.

(** C1 (as amended).  When every page fetch succeeds, the numeric version
    labels observed by [FindLatestBotVersionByName] are exactly the values
    of the records, on any page, whose label is not the sentinel and parses
    as a base-10 integer; the resolver returns the sentinel when none of
    them is greater than zero, and otherwise the maximum of them printed as
    a decimal string. *)
Theorem FindLatestBotVersionByName_resolution
        (conn : Client) (name : string)
        (pages : list (option GetBotVersionsOutput.t)) :
  botVersionsOf conn name = map FetchPage pages ->
  let vs := observed BotVersionLatest (botLabels conn name) in
  (forall v,
     In v vs <->
     exists page bot,
       In (Some page) pages /\ In bot (GetBotVersionsOutput.Bots page) /\
       botLabel bot <> BotVersionLatest /\
       strconv.Atoi (botLabel bot) = Some v) /\
  ((forall v, In v vs -> v <= 0) ->
   FindLatestBotVersionByName conn name = (BotVersionLatest, None)) /\
  (forall m,
     In m vs -> 0 < m -> (forall v, In v vs -> v <= m) ->
     FindLatestBotVersionByName conn name = (strconv.Itoa m, None)).
Proof.
  intros Hrs vs. subst vs. unfold botLabels.
  rewrite FindLatestBotVersionByName_template, Hrs.
  split; [|split].
  - intros v. rewrite observed_In. split.
    + intros (label & Hin & Hne & Hv).
      apply labelsOf_botView_In in Hin as (page & bot & Hp & Hb & <-).
      now exists page, bot.
    + intros (page & bot & Hp & Hb & Hne & Hv).
      exists (botLabel bot). repeat split; auto.
      apply labelsOf_botView_In. now exists page, bot.
  - apply resolver_sentinel, botView_success.
  - intros m. apply resolver_maximum, botView_success.
Qed.

(** C2.  If a page fetch fails, the pages before it having been fetched,
    [FindLatestBotVersionByName] returns exactly that error and the empty
    version string. *)
Theorem FindLatestBotVersionByName_fetch_error
        (conn : Client) (name : string)
        (pre : list (option GetBotVersionsOutput.t)) (e : error)
        (post : list (Fetch GetBotVersionsOutput.t)) :
  botVersionsOf conn name = map FetchPage pre ++ FetchErr e :: post ->
  FindLatestBotVersionByName conn name = (EmptyString, Some e).
Proof.
  intros Hrs. rewrite FindLatestBotVersionByName_template, Hrs.
  unfold LatestVersionResolver, botView.
  now rewrite fetchError_mapFetch, fetchError_first.
Qed.

(** C7.  For an empty result set (every page fetch succeeds and no page
    carries a record), [FindLatestBotVersionByName] returns the sentinel
    label and a nil error. *)
Theorem FindLatestBotVersionByName_empty
        (conn : Client) (name : string)
        (pages : list (option GetBotVersionsOutput.t)) :
  botVersionsOf conn name = map FetchPage pages ->
  (forall page, In (Some page) pages -> GetBotVersionsOutput.Bots page = []) ->
  FindLatestBotVersionByName conn name = (BotVersionLatest, None).
Proof.
  intros Hrs Hempty. rewrite FindLatestBotVersionByName_template, Hrs.
  apply resolver_sentinel; [apply botView_success|].
  intros v Hv. apply observed_In in Hv as (label & Hin & _).
  apply labelsOf_botView_In in Hin as (page & bot & Hp & Hb & _).
  rewrite (Hempty page Hp) in Hb. destruct Hb.
Qed.

(** C10.  When every page fetch succeeds and every label that parses as an
    integer parses to a value less than or equal to zero,
    [FindLatestBotVersionByName] returns the sentinel label: the running
    maximum starts at 0 and one round of the loop either keeps it or
    replaces it by a strictly greater parsed value. *)
Theorem FindLatestBotVersionByName_non_positive
        (conn : Client) (name : string)
        (pages : list (option GetBotVersionsOutput.t)) :
  botVersionsOf conn name = map FetchPage pages ->
  (forall label v,
     In label (botLabels conn name) -> strconv.Atoi label = Some v -> v <= 0) ->
  FindLatestBotVersionByName conn name = (BotVersionLatest, None) /\
  (forall latest bot,
     botVersionsEach latest bot = latest \/
     (latest < botVersionsEach latest bot /\
      strconv.Atoi (botLabel bot) = Some (botVersionsEach latest bot))).
Proof.
  intros Hrs Hle. split.
  - rewrite FindLatestBotVersionByName_template.
    unfold botLabels in Hle. rewrite Hrs in *.
    apply resolver_sentinel; [apply botView_success|].
    intros v Hv. apply observed_In in Hv as (label & Hin & _ & Hv). eauto.
  - intros latest bot. unfold botVersionsEach, botLabel.
    destruct (String.eqb _ BotVersionLatest); auto.
    destruct (strconv.Atoi _) as [v|]; auto.
    destruct (v >? latest) eqn:E; auto. right. split; auto. lia.
Qed.

(** C3 (as amended).  For a multi-page result set whose page fetches all
    succeed and whose maximum numeric version label is greater than zero and
    appears on a non-final page, [FindLatestBotVersionByName] returns that
    maximum; the page callback asks to continue on every page but the last. *)
Theorem FindLatestBotVersionByName_exhaustive
        (conn : Client) (name : string)
        (pre : list (option GetBotVersionsOutput.t))
        (page : GetBotVersionsOutput.t)
        (post : list (option GetBotVersionsOutput.t))
        (label : string) (m : Z) :
  botVersionsOf conn name = map FetchPage (pre ++ Some page :: post) ->
  post <> [] ->
  In label (botPageLabels page) ->
  label <> BotVersionLatest ->
  strconv.Atoi label = Some m ->
  0 < m ->
  (forall v, In v (observed BotVersionLatest (botLabels conn name)) -> v <= m) ->
  FindLatestBotVersionByName conn name = (strconv.Itoa m, None) /\
  (forall pg lastPage latestVersion,
     snd (botVersionsPage pg lastPage latestVersion) = negb lastPage).
Proof.
  intros Hrs _ Hin Hne Hv Hpos Hmax. split.
  - rewrite FindLatestBotVersionByName_template.
    unfold botLabels in Hmax. rewrite Hrs in *.
    apply resolver_maximum; auto using botView_success.
    apply observed_In. exists label. repeat split; auto.
    apply labelsOf_botView_In. unfold botPageLabels in Hin.
    apply in_map_iff in Hin as (bot & <- & Hb).
    exists page, bot. repeat split; auto.
    apply in_or_app. right. now left.
  - intros [pg|] lastPage latestVersion; reflexivity.
Qed.

(** C4.  The version string of a successful resolution is the sentinel
    label or a non-negative decimal integer literal without leading zeros. *)
Theorem FindLatestBotVersionByName_well_formed
        (conn : Client) (name : string) (s : string) :
  FindLatestBotVersionByName conn name = (s, None) ->
  s = BotVersionLatest \/ decimal.isCanonicalDecimal s = true.
Proof.
  rewrite FindLatestBotVersionByName_template. intros H.
  apply resolver_success_cases in H as [[H _]|(m & -> & Hm & _)]; [now left|].
  right. now apply strconv_facts.Itoa_canonical.
Qed.

(** C5.  Dropping the records whose label is not numeric leaves the result
    of [FindLatestBotVersionByName] unchanged, so such labels cause no
    failure; and a successful resolution never returns an integer lower
    than a numeric version label (other than the sentinel) present in the
    input: it returns the sentinel only if that label is not positive, and
    otherwise a string that reads back as an integer at least as large. *)
Theorem FindLatestBotVersionByName_lower_bound
        (conn conn' : Client) (name : string) :
  botVersionsOf conn' name = map dropMalformedBots (botVersionsOf conn name) ->
  FindLatestBotVersionByName conn' name = FindLatestBotVersionByName conn name /\
  (forall s label v,
     FindLatestBotVersionByName conn name = (s, None) ->
     In label (botLabels conn name) ->
     label <> BotVersionLatest ->
     strconv.Atoi label = Some v ->
     (s = BotVersionLatest /\ v <= 0) \/
     (exists m, s = strconv.Itoa m /\ strconv.Atoi s = Some m /\ v <= m)).
Proof.
  intros Hdrop. split.
  - rewrite !FindLatestBotVersionByName_template, Hdrop.
    apply resolver_dropMalformed.
  - intros s label v Hs Hin Hne Hv.
    rewrite FindLatestBotVersionByName_template in Hs.
    assert (Hobs : In v (observed BotVersionLatest (botLabels conn name))).
    { apply observed_In. now exists label. }
    apply resolver_success_cases in Hs as [[-> Hle]|(m & -> & Hm & _ & Hmax)].
    + left. split; auto.
    + right. exists m. repeat split; auto.
      apply strconv_facts.Atoi_Itoa.
      unfold strconv.minInt, strconv.maxInt, strconv.intSize in *.
      change (2 ^ (64 - 1)) with 9223372036854775808 in *. lia.
Qed.

(** C6.  The resolvers for bots, intents and slot types are one template:
    on result sets with the same pages of version labels and the same fetch
    errors, each is [LatestVersionResolver] at its own sentinel, and two of
    them whose sentinels are the same literal return the same version
    string and the same error. *)
Theorem FindLatest_same_template
        (conn : Client) (bot intent slotType : string)
        (L : list (Fetch LabelPage)) :
  botView (botVersionsOf conn bot) = L ->
  intentView (intentVersionsOf conn intent) = L ->
  slotTypeView (slotTypeVersionsOf conn slotType) = L ->
  FindLatestBotVersionByName conn bot =
    LatestVersionResolver BotVersionLatest L /\
  FindLatestIntentVersionByName conn intent =
    LatestVersionResolver IntentVersionLatest L /\
  FindLatestSlotTypeVersionByName conn slotType =
    LatestVersionResolver SlotTypeVersionLatest L /\
  (BotVersionLatest = IntentVersionLatest ->
   FindLatestBotVersionByName conn bot =
   FindLatestIntentVersionByName conn intent) /\
  (IntentVersionLatest = SlotTypeVersionLatest ->
   FindLatestIntentVersionByName conn intent =
   FindLatestSlotTypeVersionByName conn slotType).
Proof.
  intros <- Hi Hs.
  rewrite FindLatestBotVersionByName_template,
    FindLatestIntentVersionByName_template,
    FindLatestSlotTypeVersionByName_template, Hi, Hs.
  repeat split; intros ->; reflexivity.
Qed.

(** C8.  On the labels 5, abc, 2 [FindLatestBotVersionByName] returns 5 and
    no error; in general a record whose label fails integer parsing leaves
    the running maximum as it is, and the resolver returns the same with or
    without that record, whatever the other records and pages are. *)
Theorem FindLatestBotVersionByName_malformed_skipped :
  (forall conn name,
     BotVersionLatest <> "5" ->
     botView (botVersionsOf conn name) = [FetchPage (Some ["5"; "abc"; "2"])] ->
     FindLatestBotVersionByName conn name = ("5", None)) /\
  (forall latestVersion bot,
     strconv.Atoi (botLabel bot) = None ->
     botVersionsEach latestVersion bot = latestVersion) /\
  (forall conn conn' name pre post before after bot token,
     strconv.Atoi (botLabel bot) = None ->
     botVersionsOf conn name =
       pre ++ FetchPage (Some
         {| GetBotVersionsOutput.Bots := before ++ bot :: after;
            GetBotVersionsOutput.NextToken := token |}) :: post ->
     botVersionsOf conn' name =
       pre ++ FetchPage (Some
         {| GetBotVersionsOutput.Bots := before ++ after;
            GetBotVersionsOutput.NextToken := token |}) :: post ->
     FindLatestBotVersionByName conn name =
     FindLatestBotVersionByName conn' name).
Proof.
  split; [|split].
  - intros conn name Hne Hview.
    rewrite FindLatestBotVersionByName_template, Hview.
    unfold LatestVersionResolver. cbn [fetchError].
    change (labelsOf [FetchPage (Some ["5"; "abc"; "2"])]) with ["5"; "abc"; "2"].
    rewrite (observed_cons _ "5"), (observed_cons _ "abc").
    rewrite (@observed_malformed _ "abc" eq_refl).
    rewrite (@observed_numeric _ "5" 5 (not_eq_sym Hne) eq_refl).
    destruct (observed_single BotVersionLatest "2") as [->| ->];
      reflexivity.
  - intros latestVersion bot Hbot. unfold botVersionsEach.
    fold (botLabel bot). rewrite Hbot. now destruct (String.eqb _ _).
  - intros conn conn' name pre post before after bot token Hbot Hrs Hrs'.
    rewrite !FindLatestBotVersionByName_template, Hrs, Hrs'.
    now apply resolver_without_record.
Qed.

(** C9.  [FindBotVersionByName] and [FindSlotTypeVersionByName] translate
    what the underlying call returns: a NotFoundException becomes a nil
    output with a NotFoundError holding that error and the request; any
    other error is returned unchanged with a nil output; a nil output
    without error becomes an empty-result error; otherwise the output is
    returned with a nil error. *)
Theorem FindVersionByName_translation
        (conn : Client) (name version : string) :
  (forall output err,
     let input := {| GetBotInput.Name := aws.String name;
                     GetBotInput.VersionOrAlias := aws.String version |} in
     GetBot conn input = (output, err) ->
     (errs.IsA_NotFoundException err = true ->
      FindBotVersionByName conn name version =
      (None, Some (NotFoundError err (GetBotRequest input)))) /\
     (forall e, errs.IsA_NotFoundException err = false -> err = Some e ->
      FindBotVersionByName conn name version = (None, Some e)) /\
     (err = None -> output = None ->
      FindBotVersionByName conn name version =
      (None, Some (EmptyResultError (GetBotRequest input)))) /\
     (forall o, err = None -> output = Some o ->
      FindBotVersionByName conn name version = (Some o, None))) /\
  (forall output err,
     let input := {| GetSlotTypeInput.Name := aws.String name;
                     GetSlotTypeInput.Version := aws.String version |} in
     GetSlotType conn input = (output, err) ->
     (errs.IsA_NotFoundException err = true ->
      FindSlotTypeVersionByName conn name version =
      (None, Some (NotFoundError err (GetSlotTypeRequest input)))) /\
     (forall e, errs.IsA_NotFoundException err = false -> err = Some e ->
      FindSlotTypeVersionByName conn name version = (None, Some e)) /\
     (err = None -> output = None ->
      FindSlotTypeVersionByName conn name version =
      (None, Some (EmptyResultError (GetSlotTypeRequest input)))) /\
     (forall o, err = None -> output = Some o ->
      FindSlotTypeVersionByName conn name version = (Some o, None))).
Proof.
  split; intros output err input Hcall.
  - unfold FindBotVersionByName. fold input. rewrite Hcall.
    repeat split.
    + now intros ->.
    + now intros e -> ->.
    + now intros -> ->.
    + now intros o -> ->.
  - unfold FindSlotTypeVersionByName. fold input. rewrite Hcall.
    repeat split.
    + now intros ->.
    + now intros e -> ->.
    + now intros -> ->.
    + now intros o -> ->.
Qed.

End Claims.

(** The resolver on two pages, labels 1, $LATEST, 3 and abc, 2, and on a
    page that holds no numeric label. *)
Lemma FindLatestBotVersionByName_resolution_witness :
  FindLatestBotVersionByName (K := LexConsts)
    (Samples.listing
       [FetchPage (Some ["1"; "$LATEST"; "3"]); FetchPage (Some ["abc"; "2"])])
    "OrderFlowers" = ("3", None) /\
  FindLatestBotVersionByName (K := LexConsts)
    (Samples.listing [FetchPage (Some ["$LATEST"; "abc"])])
    "OrderFlowers" = ("$LATEST", None).
Proof.
  split.
  - refine (proj2 (proj2
      (@FindLatestBotVersionByName_resolution LexConsts
         (Samples.listing
            [FetchPage (Some ["1"; "$LATEST"; "3"]); FetchPage (Some ["abc"; "2"])])
         "OrderFlowers"
         [Samples.botPage ["1"; "$LATEST"; "3"]; Samples.botPage ["abc"; "2"]]
         eq_refl)) 3 _ _ _).
    + vm_compute. auto.
    + lia.
    + intros v Hv. vm_compute in Hv. destruct Hv as [<-|[<-|[<-|[]]]]; lia.
  - refine (proj1 (proj2
      (@FindLatestBotVersionByName_resolution LexConsts
         (Samples.listing [FetchPage (Some ["$LATEST"; "abc"])])
         "OrderFlowers" [Samples.botPage ["$LATEST"; "abc"]] eq_refl)) _).
    intros v Hv. vm_compute in Hv. destruct Hv.
Defined.

(** The second page fetch is throttled. *)
Lemma FindLatestBotVersionByName_fetch_error_witness :
  FindLatestBotVersionByName (K := LexConsts)
    (Samples.listing
       [FetchPage (Some ["4"]); FetchErr Samples.throttled; FetchPage (Some ["9"])])
    "OrderFlowers" = (EmptyString, Some Samples.throttled).
Proof.
  exact (@FindLatestBotVersionByName_fetch_error LexConsts
           (Samples.listing
              [FetchPage (Some ["4"]); FetchErr Samples.throttled;
               FetchPage (Some ["9"])])
           "OrderFlowers" [Samples.botPage ["4"]] Samples.throttled
           [FetchPage (Samples.botPage ["9"])] eq_refl).
Defined.

(** A nil page followed by a page without records. *)
Lemma FindLatestBotVersionByName_empty_witness :
  FindLatestBotVersionByName (K := LexConsts)
    (Samples.listing [FetchPage None; FetchPage (Some [])])
    "OrderFlowers" = ("$LATEST", None).
Proof.
  refine (@FindLatestBotVersionByName_empty LexConsts
            (Samples.listing [FetchPage None; FetchPage (Some [])])
            "OrderFlowers" [None; Samples.botPage []] eq_refl _).
  intros page [H|[H|[]]]; [discriminate|]. now injection H as <-.
Defined.

(** Labels 0, -3 and abc on two pages. *)
Lemma FindLatestBotVersionByName_non_positive_witness :
  FindLatestBotVersionByName (K := LexConsts)
    (Samples.listing [FetchPage (Some ["0"; "-3"]); FetchPage (Some ["abc"])])
    "OrderFlowers" = ("$LATEST", None).
Proof.
  refine (proj1 (@FindLatestBotVersionByName_non_positive LexConsts
            (Samples.listing [FetchPage (Some ["0"; "-3"]); FetchPage (Some ["abc"])])
            "OrderFlowers" [Samples.botPage ["0"; "-3"]; Samples.botPage ["abc"]]
            eq_refl _)).
  intros label v Hin Hv. vm_compute in Hin.
  destruct Hin as [<-|[<-|[<-|[]]]]; vm_compute in Hv; inversion Hv; lia.
Defined.

(** C1 as stated fails on a single page whose only label is 0: a numeric
    version label was observed and the maximum, re-encoded, is the string 0,
    but the resolver returns the sentinel. *)
Lemma FindLatestBotVersionByName_zero_label :
  let conn := Samples.listing [FetchPage (Some ["0"])] in
  observed "$LATEST" (botLabels conn "OrderFlowers") = [0] /\
  resolvedVersionAsStated "$LATEST" (botLabels conn "OrderFlowers") = "0" /\
  FindLatestBotVersionByName (K := LexConsts) conn "OrderFlowers"
    = ("$LATEST", None) /\
  FindLatestBotVersionByName (K := LexConsts) conn "OrderFlowers"
    <> (resolvedVersionAsStated "$LATEST" (botLabels conn "OrderFlowers"), None).
Proof.
  cbv zeta. repeat split; try (vm_compute; reflexivity).
  vm_compute. discriminate.
Qed.

(** The maximum 7 on the first of three pages. *)
Lemma FindLatestBotVersionByName_exhaustive_witness :
  FindLatestBotVersionByName (K := LexConsts)
    (Samples.listing
       [FetchPage (Some ["2"; "7"]); FetchPage None; FetchPage (Some ["$LATEST"; "5"])])
    "OrderFlowers" = ("7", None).
Proof.
  refine (proj1
    (@FindLatestBotVersionByName_exhaustive LexConsts
       (Samples.listing
          [FetchPage (Some ["2"; "7"]); FetchPage None;
           FetchPage (Some ["$LATEST"; "5"])])
       "OrderFlowers" []
       {| GetBotVersionsOutput.Bots := map Samples.bot ["2"; "7"];
          GetBotVersionsOutput.NextToken := None |}
       [None; Samples.botPage ["$LATEST"; "5"]] "7" 7
       eq_refl _ _ _ eq_refl _ _)).
  - discriminate.
  - vm_compute. auto.
  - discriminate.
  - lia.
  - intros v Hv. vm_compute in Hv. destruct Hv as [<-|[<-|[<-|[]]]]; lia.
Defined.

(** C3 as stated fails on two pages, the first with the single label 0 and
    the second without records: the maximum numeric version label, 0,
    appears on the non-final page, and the resolver returns the sentinel
    instead of the string 0. *)
Lemma FindLatestBotVersionByName_zero_on_first_page :
  let conn := Samples.listing [FetchPage (Some ["0"]); FetchPage (Some [])] in
  botVersionsOf conn "OrderFlowers" =
    map FetchPage ([] ++ Samples.botPage ["0"] :: [Samples.botPage []]) /\
  strconv.Atoi "0" = Some 0 /\
  "0" <> BotVersionLatest (Consts := LexConsts) /\
  observed "$LATEST" (botLabels conn "OrderFlowers") = [0] /\
  FindLatestBotVersionByName (K := LexConsts) conn "OrderFlowers"
    = ("$LATEST", None) /\
  FindLatestBotVersionByName (K := LexConsts) conn "OrderFlowers"
    <> (strconv.Itoa 0, None).
Proof.
  cbv zeta. repeat split; try (vm_compute; reflexivity); vm_compute; discriminate.
Qed.

(** The resolved version 12 is a canonical decimal literal. *)
Lemma FindLatestBotVersionByName_well_formed_witness :
  "12" = BotVersionLatest (Consts := LexConsts) \/
  decimal.isCanonicalDecimal "12" = true.
Proof.
  exact (@FindLatestBotVersionByName_well_formed LexConsts
           (Samples.listing [FetchPage (Some ["007"; "+12"; "$LATEST"])])
           "OrderFlowers" "12" eq_refl).
Defined.

(** Labels 5, abc, 2: dropping abc changes nothing, and 5 bounds the label 2. *)
Lemma FindLatestBotVersionByName_lower_bound_witness :
  let conn := Samples.listing [FetchPage (Some ["5"; "abc"; "2"])] in
  let conn' := Samples.listing [FetchPage (Some ["5"; "2"])] in
  FindLatestBotVersionByName (K := LexConsts) conn' "OrderFlowers" =
  FindLatestBotVersionByName (K := LexConsts) conn "OrderFlowers" /\
  (("5" = "$LATEST" /\ 2 <= 0) \/
   (exists m, "5" = strconv.Itoa m /\ strconv.Atoi "5" = Some m /\ 2 <= m)).
Proof.
  cbv zeta.
  pose proof (@FindLatestBotVersionByName_lower_bound LexConsts
                (Samples.listing [FetchPage (Some ["5"; "abc"; "2"])])
                (Samples.listing [FetchPage (Some ["5"; "2"])])
                "OrderFlowers" eq_refl) as [Hsame Hbound].
  split; [exact Hsame|].
  apply (Hbound "5" "2" 2 eq_refl).
  - vm_compute. auto.
  - discriminate.
  - reflexivity.
Defined.

(** One listing of labels behind all three endpoints. *)
Lemma FindLatest_same_template_witness :
  let conn :=
    Samples.listing
      [FetchPage (Some ["1"; "$LATEST"]); FetchPage None; FetchPage (Some ["4"; "x"])] in
  FindLatestBotVersionByName (K := LexConsts) conn "OrderFlowers" = ("4", None) /\
  FindLatestIntentVersionByName (K := LexConsts) conn "OrderFlowers" = ("4", None) /\
  FindLatestSlotTypeVersionByName (K := LexConsts) conn "FlowerTypes" = ("4", None).
Proof.
  cbv zeta.
  pose proof (@FindLatest_same_template LexConsts
                (Samples.listing
                   [FetchPage (Some ["1"; "$LATEST"]); FetchPage None;
                    FetchPage (Some ["4"; "x"])])
                "OrderFlowers" "OrderFlowers" "FlowerTypes"
                [FetchPage (Some ["1"; "$LATEST"]); FetchPage None;
                 FetchPage (Some ["4"; "x"])]
                eq_refl eq_refl eq_refl) as (Hb & Hi & Hs & Hbi & His).
  rewrite <- (His eq_refl), <- (Hbi eq_refl), Hb.
  repeat split; reflexivity.
Defined.

(** The specification's example, and the same page without its malformed
    record. *)
Lemma FindLatestBotVersionByName_malformed_skipped_witness :
  let conn := Samples.listing [FetchPage (Some ["5"; "abc"; "2"])] in
  let conn' := Samples.listing [FetchPage (Some ["5"; "2"])] in
  FindLatestBotVersionByName (K := LexConsts) conn "OrderFlowers" = ("5", None) /\
  botVersionsEach (K := LexConsts) 5 (Samples.bot "abc") = 5 /\
  FindLatestBotVersionByName (K := LexConsts) conn "OrderFlowers" =
  FindLatestBotVersionByName (K := LexConsts) conn' "OrderFlowers".
Proof.
  cbv zeta.
  destruct (@FindLatestBotVersionByName_malformed_skipped LexConsts)
    as (Hexample & Heach & Hdrop).
  split; [|split].
  - apply Hexample; [discriminate|reflexivity].
  - apply Heach. reflexivity.
  - apply (Hdrop _ _ "OrderFlowers" [] [] [Samples.bot "5"] [Samples.bot "2"]
             (Samples.bot "abc") None); reflexivity.
Defined.

(** The four outcomes of the single-item call, for bots and slot types. *)
Lemma FindVersionByName_translation_witness :
  let request :=
    GetBotRequest {| GetBotInput.Name := Some "OrderFlowers";
                     GetBotInput.VersionOrAlias := Some "3" |} in
  let slotRequest :=
    GetSlotTypeRequest {| GetSlotTypeInput.Name := Some "FlowerTypes";
                          GetSlotTypeInput.Version := Some "1" |} in
  FindBotVersionByName (Samples.answering None None (Some Samples.missing))
    "OrderFlowers" "3" =
    (None, Some (NotFoundError (Some Samples.missing) request)) /\
  FindBotVersionByName (Samples.answering None None (Some Samples.throttled))
    "OrderFlowers" "3" = (None, Some Samples.throttled) /\
  FindBotVersionByName (Samples.answering None None None) "OrderFlowers" "3" =
    (None, Some (EmptyResultError request)) /\
  FindBotVersionByName
    (Samples.answering (Some Samples.orderFlowers) None None) "OrderFlowers" "3" =
    (Some Samples.orderFlowers, None) /\
  FindSlotTypeVersionByName (Samples.answering None None (Some Samples.missing))
    "FlowerTypes" "1" =
    (None, Some (NotFoundError (Some Samples.missing) slotRequest)) /\
  FindSlotTypeVersionByName (Samples.answering None None (Some Samples.throttled))
    "FlowerTypes" "1" = (None, Some Samples.throttled) /\
  FindSlotTypeVersionByName (Samples.answering None None None) "FlowerTypes" "1" =
    (None, Some (EmptyResultError slotRequest)) /\
  FindSlotTypeVersionByName
    (Samples.answering None (Some Samples.flowerTypes) None) "FlowerTypes" "1" =
    (Some Samples.flowerTypes, None).
Proof.
  cbv zeta.
  pose proof (fun c => proj1 (@FindVersionByName_translation c "OrderFlowers" "3"))
    as B.
  pose proof (fun c => proj2 (@FindVersionByName_translation c "FlowerTypes" "1"))
    as S.
  refine (conj _ (conj _ (conj _ (conj _ (conj _ (conj _ (conj _ _))))))).
  - exact (proj1 (B (Samples.answering None None (Some Samples.missing))
                    None (Some Samples.missing) eq_refl) eq_refl).
  - exact (proj1 (proj2 (B (Samples.answering None None (Some Samples.throttled))
                           None (Some Samples.throttled) eq_refl))
             Samples.throttled eq_refl eq_refl).
  - exact (proj1 (proj2 (proj2 (B (Samples.answering None None None)
                                  None None eq_refl))) eq_refl eq_refl).
  - exact (proj2 (proj2 (proj2
             (B (Samples.answering (Some Samples.orderFlowers) None None)
                (Some Samples.orderFlowers) None eq_refl)))
             Samples.orderFlowers eq_refl eq_refl).
  - exact (proj1 (S (Samples.answering None None (Some Samples.missing))
                    None (Some Samples.missing) eq_refl) eq_refl).
  - exact (proj1 (proj2 (S (Samples.answering None None (Some Samples.throttled))
                           None (Some Samples.throttled) eq_refl))
             Samples.throttled eq_refl eq_refl).
  - exact (proj1 (proj2 (proj2 (S (Samples.answering None None None)
                                  None None eq_refl))) eq_refl eq_refl).
  - exact (proj2 (proj2 (proj2
             (S (Samples.answering None (Some Samples.flowerTypes) None)
                (Some Samples.flowerTypes) None eq_refl)))
             Samples.flowerTypes eq_refl eq_refl).
Defined.

End lexmodels_spec.

(* ================================================================== *)
(** ** Printing reads back: from a canonical literal to its integer and back *)

Module strconv_print.
Import strconv decimal strconv_facts.

Lemma digitChar_digitValue (ch : ascii) (d : Z) :
  digitValue ch = Some d -> digitChar d = ch.
Proof.
  unfold digitValue, digitChar.
  destruct ((48 <=? Z.of_N (N_of_ascii ch)) && (Z.of_N (N_of_ascii ch) <=? 57));
    [|discriminate].
  intros [= <-].
  replace (48 + (Z.of_N (N_of_ascii ch) - 48)) with (Z.of_N (N_of_ascii ch)) by lia.
  rewrite N2Z.id. apply ascii_N_embedding.
Qed.

Lemma append_empty (s : string) : (s ++ EmptyString)%string = s.
Proof. induction s; cbn; congruence. Qed.

(** Rounds beyond the number of digits are never used. *)
Lemma formatDigits_rounds (k : nat) :
  forall k' v a,
    (0 < k)%nat -> (0 < k')%nat ->
    0 <= v < 10 ^ Z.of_nat k -> v < 10 ^ Z.of_nat k' ->
    formatDigits k v a = formatDigits k' v a.
Proof.
  induction k as [|k IH]; intros k' v a Hk Hk' Hv Hv'; [lia|].
  destruct k' as [|k']; [lia|].
  cbn [formatDigits]. destruct (v <? 10) eqn:E; [reflexivity|].
  apply Z.ltb_ge in E.
  rewrite Nat2Z.inj_succ, Z.pow_succ_r in Hv, Hv' by lia.
  assert (Hq : 0 <= v / 10) by (apply Z.div_pos; lia).
  assert (Hq1 : v / 10 < 10 ^ Z.of_nat k) by (apply Z.div_lt_upper_bound; lia).
  assert (Hq2 : v / 10 < 10 ^ Z.of_nat k') by (apply Z.div_lt_upper_bound; lia).
  assert (1 <= v / 10) by (apply Z.div_le_lower_bound; lia).
  destruct k as [|k0]; [cbn in Hq1; lia|].
  destruct k' as [|k0']; [cbn in Hq2; lia|].
  apply IH; lia.
Qed.

Lemma parseDigits_bound (s : string) :
  forall n v, 0 <= n -> parseDigits n s = Some v ->
    0 <= v < (n + 1) * 10 ^ Z.of_nat (String.length s).
Proof.
  induction s as [|ch rest IH]; intros n v Hn; cbn [parseDigits String.length].
  - intros [= <-]. cbn. lia.
  - destruct (digitValue ch) as [d|] eqn:D; [|discriminate].
    apply digitValue_range in D. intros Hp.
    apply IH in Hp; [|lia].
    rewrite Nat2Z.inj_succ, Z.pow_succ_r by lia.
    assert (0 < 10 ^ Z.of_nat (String.length rest)) by (apply Z.pow_pos_nonneg; lia).
    nia.
Qed.

(** Printing the value of digits read after a positive prefix writes those
    digits and goes on with the prefix. *)
Lemma format_parse (s : string) :
  forall n j v a,
    0 < n -> parseDigits n s = Some v ->
    formatDigits (String.length s + j) v a = formatDigits j n (s ++ a)%string.
Proof.
  induction s as [|ch rest IH]; intros n j v a Hn; cbn [parseDigits String.length].
  - intros [= <-]. reflexivity.
  - destruct (digitValue ch) as [d|] eqn:D; [|discriminate].
    intros Hp. pose proof (digitValue_range _ D) as Hd.
    replace (S (String.length rest) + j)%nat
      with (String.length rest + S j)%nat by lia.
    rewrite (IH (n * 10 + d) (S j) v a) by (assumption || lia).
    cbn [formatDigits].
    assert (E : (n * 10 + d <? 10) = false) by (apply Z.ltb_ge; lia).
    rewrite E.
    replace ((n * 10 + d) / 10) with n
      by (apply Z.div_unique with d; lia).
    replace ((n * 10 + d) mod 10) with d
      by (apply Z.mod_unique with n; lia).
    now rewrite (digitChar_digitValue _ D).
Qed.

(** [Itoa] prints back a canonical literal that [Atoi] has read. *)
Lemma Itoa_Atoi_canonical (s : string) (v : Z) :
  isCanonicalDecimal s = true -> Atoi s = Some v -> Itoa v = s.
Proof.
  destruct s as [|ch rest]; [discriminate|].
  cbn [isCanonicalDecimal]. intros Hc.
  apply andb_prop in Hc as [Hc Hz]. apply andb_prop in Hc as [Hd _].
  unfold isDigit in Hd. destruct (digitValue ch) as [d|] eqn:D; [|discriminate].
  pose proof (digitValue_range _ D) as Hr.
  pose proof (digitChar_digitValue _ D) as Hch.
  assert (Hs : isSign ch = false) by (rewrite <- Hch; now apply digitChar_not_sign).
  assert (Hm : Ascii.eqb ch "-" = false).
  { unfold isSign in Hs. now apply orb_false_iff in Hs. }
  unfold Atoi. rewrite Hs, Hm. cbn [parseDigits]. rewrite D.
  change (0 * 10 + d) with d.
  destruct (parseDigits d rest) as [n|] eqn:P; [|discriminate].
  destruct ((minInt <=? n) && (n <=? maxInt)) eqn:R; [|discriminate].
  intros [= <-]. apply andb_prop in R as [_ R]. apply Z.leb_le in R.
  pose proof (@parseDigits_bound rest d n (proj1 Hr) P) as B.
  unfold Itoa. assert (E : (n <? 0) = false) by (apply Z.ltb_ge; lia). rewrite E.
  assert (Hd0 : d = 0 \/ 0 < d) by lia. destruct Hd0 as [-> | Hpos].
  - assert (Hrest : rest = EmptyString).
    { rewrite <- Hch in Hz. change (Ascii.eqb (digitChar 0) "0") with true in Hz.
      cbn in Hz. now apply String.eqb_eq in Hz. }
    subst rest. cbn in P. injection P as <-. now rewrite <- Hch.
  - assert (B20 : n < 10 ^ Z.of_nat 20).
    { unfold maxInt, intSize in R.
      change (2 ^ (64 - 1)) with 9223372036854775808 in R.
      change (10 ^ Z.of_nat 20) with 100000000000000000000. lia. }
    assert (Bk : n < 10 ^ Z.of_nat (String.length rest + 1)).
    { rewrite Nat2Z.inj_add, Z.pow_add_r by lia.
      assert (0 < 10 ^ Z.of_nat (String.length rest))
        by (apply Z.pow_pos_nonneg; lia).
      change (10 ^ Z.of_nat 1) with 10. nia. }
    rewrite (@formatDigits_rounds 20 (String.length rest + 1) n EmptyString)
      by lia.
    rewrite (@format_parse rest d 1 n EmptyString Hpos P).
    rewrite append_empty. cbn [formatDigits].
    assert (E10 : (d <? 10) = true) by (apply Z.ltb_lt; lia).
    now rewrite E10, Hch.
Qed.

End strconv_print.

(* ================================================================== *)
(** ** Further facts about result sets and the running maximum *)

Module Resolution_more.
Import Resolution Resolution_facts Passing lexmodels_facts.

Lemma success_pages {P : Type} (rs : list (Fetch P)) :
  fetchError rs = None -> rs = map FetchPage (delivered rs).
Proof.
  induction rs as [|[e|page] rest IH]; cbn; intros H;
    [reflexivity | discriminate | f_equal; auto].
Qed.

Lemma failure_split {P : Type} (rs : list (Fetch P)) (e : error) :
  fetchError rs = Some e ->
  exists pre post, rs = map FetchPage pre ++ FetchErr e :: post.
Proof.
  induction rs as [|[e'|page] rest IH]; cbn; intros H.
  - discriminate.
  - injection H as ->. now exists [], rest.
  - destruct (IH H) as (pre & post & ->). now exists (page :: pre), post.
Qed.

Lemma fold_max_incl (vs vs' : list Z) (init : Z) :
  incl vs vs' -> fold_left Z.max vs init <= fold_left Z.max vs' init.
Proof.
  intros Hincl. apply fold_max_le.
  - intros v Hv. apply fold_max_ge. now apply Hincl.
  - apply fold_max_ge_init.
Qed.

Lemma observed_incl (sentinel : string) (xs ys : list string) :
  incl xs ys -> incl (observed sentinel xs) (observed sentinel ys).
Proof.
  intros Hincl v Hv. apply observed_In in Hv as (label & Hin & Hne & Hv).
  apply observed_In. exists label. auto.
Qed.

(** What is resolved depends on the set of labels only. *)
Lemma resolver_same_labels (sentinel : string) (L L' : list (Fetch LabelPage)) :
  fetchError L = None -> fetchError L' = None ->
  (forall label, In label (labelsOf L) <-> In label (labelsOf L')) ->
  LatestVersionResolver sentinel L = LatestVersionResolver sentinel L'.
Proof.
  intros H H' Hsame. unfold LatestVersionResolver. rewrite H, H'.
  assert (E : fold_left Z.max (observed sentinel (labelsOf L)) 0 =
              fold_left Z.max (observed sentinel (labelsOf L')) 0).
  { apply Z.le_antisymm; apply fold_max_incl, observed_incl;
      intros label Hl; now apply Hsame. }
  now rewrite E.
Qed.

Lemma resolver_error (sentinel : string) (L : list (Fetch LabelPage))
      (s : string) (err : option error) :
  LatestVersionResolver sentinel L = (s, err) ->
  fetchError L = err /\ (err <> None -> s = EmptyString).
Proof.
  unfold LatestVersionResolver. destruct (fetchError L) as [e|].
  - intros [= <- <-]. auto.
  - intros [= _ <-]. split; auto. congruence.
Qed.

Lemma resolver_failure (sentinel : string) (pre : list (option LabelPage))
      (e : error) (post : list (Fetch LabelPage)) :
  LatestVersionResolver sentinel (map FetchPage pre ++ FetchErr e :: post) =
  (EmptyString, Some e).
Proof. unfold LatestVersionResolver. now rewrite fetchError_first. Qed.

Lemma observed_filter_kept (sentinel : string) (keep : BotMetadata.t -> bool)
      (bots : list BotMetadata.t) :
  (forall bot, keep bot = false -> observed sentinel [botLabel bot] = []) ->
  observed sentinel (map botLabel (filter keep bots)) =
  observed sentinel (map botLabel bots).
Proof.
  intros Hkeep. induction bots as [|bot bots IH]; [reflexivity|].
  cbn [filter map]. destruct (keep bot) eqn:E.
  - cbn [map].
    rewrite (observed_cons sentinel (botLabel bot) (map botLabel bots)), <- IH.
    apply observed_cons.
  - now rewrite (observed_cons sentinel (botLabel bot) (map botLabel bots)),
      (Hkeep _ E).
Qed.

(** Pages without their sentinel records resolve alike. *)
Lemma resolver_dropSentinel (sentinel : string)
      (rs : list (Fetch GetBotVersionsOutput.t)) :
  LatestVersionResolver sentinel (botView (map (dropSentinelBots sentinel) rs)) =
  LatestVersionResolver sentinel (botView rs).
Proof.
  unfold LatestVersionResolver, botView, dropSentinelBots.
  rewrite !fetchError_mapFetch.
  replace (observed sentinel (labelsOf (map (mapFetch botPageLabels)
             (map (mapFetch _) rs))))
    with (observed sentinel (labelsOf (map (mapFetch botPageLabels) rs)));
    [reflexivity|].
  unfold labelsOf.
  induction rs as [|[e|[pg|]] rest IH];
    cbn [map mapFetch delivered option_map pageLabels List.concat]; auto.
  rewrite !observed_app, IH. f_equal.
  unfold botPageLabels. cbn [GetBotVersionsOutput.Bots].
  symmetry. apply (observed_filter_kept sentinel
    (fun bot => negb (String.eqb (botLabel bot) sentinel))).
  intros bot Hb. apply negb_false_iff in Hb.
  unfold observed. cbn. now rewrite Hb.
Qed.

(** The labels of a result set without failed fetch are the labels of the
    records on its pages. *)
Lemma labelsOf_botView_pages (rs : list (Fetch GetBotVersionsOutput.t))
      (label : string) :
  fetchError rs = None ->
  In label (labelsOf (botView rs)) ->
  exists page bot,
    In (FetchPage (Some page)) rs /\ In bot (GetBotVersionsOutput.Bots page) /\
    botLabel bot = label.
Proof.
  intros Hs Hin. rewrite (success_pages rs Hs) in Hin.
  apply labelsOf_botView_In in Hin as (page & bot & Hp & Hb & Hl).
  exists page, bot. repeat split; auto.
  rewrite (success_pages rs Hs). now apply in_map.
Qed.

End Resolution_more.

(* ================================================================== *)
(** ** Further properties of the finders *)

Module lexmodels_more.
Import Resolution Resolution_facts Passing lexmodels lexmodels_facts
       Resolution_more.

Section BotResolver.
Context {K : Consts}.

(** X1.  When no page fetch fails, what [FindLatestBotVersionByName]
    returns depends only on which version labels occur: the order of the
    records, repeated labels, empty or nil pages and the way the records are
    cut into pages make no difference. *)
Theorem FindLatestBotVersionByName_same_labels
        (conn conn' : Client) (name name' : string)
        (pages pages' : list (option GetBotVersionsOutput.t)) :
  botVersionsOf conn name = map FetchPage pages ->
  botVersionsOf conn' name' = map FetchPage pages' ->
  (forall label,
     In label (botLabels conn name) <-> In label (botLabels conn' name')) ->
  FindLatestBotVersionByName conn name = FindLatestBotVersionByName conn' name'.
Proof.
  intros Hrs Hrs' Hsame. rewrite !FindLatestBotVersionByName_template.
  unfold botLabels in Hsame.
  apply resolver_same_labels; auto; [rewrite Hrs | rewrite Hrs'];
    apply botView_success.
Qed.

(** X2.  More records never lower the resolved version: if every label of
    one result set also occurs in another, both resolutions succeed and the
    first has a numeric label greater than zero, then both return integers
    and the second is at least the first. *)
Theorem FindLatestBotVersionByName_monotone
        (conn conn' : Client) (name name' : string) (s s' : string) (v : Z) :
  FindLatestBotVersionByName conn name = (s, None) ->
  FindLatestBotVersionByName conn' name' = (s', None) ->
  incl (botLabels conn name) (botLabels conn' name') ->
  In v (observed BotVersionLatest (botLabels conn name)) ->
  0 < v ->
  exists m m',
    s = strconv.Itoa m /\ s' = strconv.Itoa m' /\ v <= m /\ m <= m'.
Proof.
  rewrite !FindLatestBotVersionByName_template. intros Hs Hs' Hincl Hv Hpos.
  pose proof (observed_incl BotVersionLatest Hincl) as Hobs.
  unfold botLabels in *.
  apply resolver_success_cases in Hs as [[_ Hle]|(m & -> & _ & Hm & Hmax)].
  { specialize (Hle v Hv). lia. }
  apply resolver_success_cases in Hs' as [[_ Hle]|(m' & -> & _ & _ & Hmax')].
  { specialize (Hle v (Hobs v Hv)). lia. }
  exists m, m'. repeat split; auto.
Qed.

(** X3.  A successful resolution never invents a version: the string
    returned is the sentinel, and then no numeric label is greater than
    zero, or it is the printed value, greater than zero, of the label of a
    record on one of the pages, which is not the sentinel. *)
Theorem FindLatestBotVersionByName_attained
        (conn : Client) (name : string) (s : string) :
  FindLatestBotVersionByName conn name = (s, None) ->
  (s = BotVersionLatest /\
   forall v, In v (observed BotVersionLatest (botLabels conn name)) -> v <= 0) \/
  (exists page bot m,
     In (FetchPage (Some page)) (botVersionsOf conn name) /\
     In bot (GetBotVersionsOutput.Bots page) /\
     botLabel bot <> BotVersionLatest /\
     strconv.Atoi (botLabel bot) = Some m /\
     0 < m /\ s = strconv.Itoa m).
Proof.
  rewrite FindLatestBotVersionByName_template. intros Hs.
  pose proof (resolver_error _ _ Hs) as [Hok _].
  unfold botView in Hok. rewrite fetchError_mapFetch in Hok.
  apply resolver_success_cases in Hs as [Hs|(m & -> & Hm & Hin & _)];
    [now left|right].
  apply observed_In in Hin as (label & Hin & Hne & Hv).
  apply (labelsOf_botView_pages _ _ Hok) in Hin as (page & bot & Hp & Hb & <-).
  exists page, bot, m. repeat split; auto; lia.
Qed.

(** X4.  When the greatest numeric label is greater than zero and is
    written canonically (decimal digits only, no sign, no leading zero),
    [FindLatestBotVersionByName] returns that label itself. *)
Theorem FindLatestBotVersionByName_verbatim
        (conn : Client) (name : string)
        (pages : list (option GetBotVersionsOutput.t)) (label : string) (m : Z) :
  botVersionsOf conn name = map FetchPage pages ->
  In label (botLabels conn name) ->
  label <> BotVersionLatest ->
  decimal.isCanonicalDecimal label = true ->
  strconv.Atoi label = Some m ->
  0 < m ->
  (forall v, In v (observed BotVersionLatest (botLabels conn name)) -> v <= m) ->
  FindLatestBotVersionByName conn name = (label, None).
Proof.
  intros Hrs Hin Hne Hc Hv Hpos Hmax.
  rewrite FindLatestBotVersionByName_template.
  rewrite <- (strconv_print.Itoa_Atoi_canonical label Hc Hv).
  unfold botLabels in *.
  apply resolver_maximum; auto.
  - rewrite Hrs. apply botView_success.
  - apply observed_In. now exists label.
Qed.

(** X5.  [FindLatestBotVersionByName] fails only when a page fetch fails:
    an error returned is the error of a failed fetch whose earlier fetches
    all succeeded, and comes with the empty version string; a nil error
    means that every page fetch succeeded. *)
Theorem FindLatestBotVersionByName_failure_origin
        (conn : Client) (name : string) (s : string) (err : option error) :
  FindLatestBotVersionByName conn name = (s, err) ->
  match err with
  | Some e =>
      s = EmptyString /\
      exists pre post,
        botVersionsOf conn name = map FetchPage pre ++ FetchErr e :: post
  | None => exists pages, botVersionsOf conn name = map FetchPage pages
  end.
Proof.
  rewrite FindLatestBotVersionByName_template. intros Hs.
  apply resolver_error in Hs as [Hf He].
  unfold botView in Hf. rewrite fetchError_mapFetch in Hf.
  destruct err as [e|].
  - split; [apply He; discriminate|]. now apply failure_split.
  - exists (delivered (botVersionsOf conn name)). now apply success_pages.
Qed.

(** X6.  Records whose version label is the sentinel never count: without
    them [FindLatestBotVersionByName] returns the same, whatever the
    sentinel literal is. *)
Theorem FindLatestBotVersionByName_sentinel_skipped
        (conn conn' : Client) (name : string) :
  botVersionsOf conn' name =
    map (dropSentinelBots BotVersionLatest) (botVersionsOf conn name) ->
  FindLatestBotVersionByName conn' name = FindLatestBotVersionByName conn name.
Proof.
  intros Hdrop. rewrite !FindLatestBotVersionByName_template, Hdrop.
  apply resolver_dropSentinel.
Qed.

End BotResolver.

Section SingleItem.

(** X7.  [FindBotVersionByName] returns an output or an error, never both
    and never neither; an output returned is the one the service call gave
    together with a nil error; and an error of the service call is never
    turned into a success. *)
Theorem FindBotVersionByName_outcome
        (conn : Client) (name version : string)
        (output : option GetBotOutput.t) (err : option error) :
  FindBotVersionByName conn name version = (output, err) ->
  let input := {| GetBotInput.Name := aws.String name;
                  GetBotInput.VersionOrAlias := aws.String version |} in
  (output = None <-> err <> None) /\
  (forall o, output = Some o -> GetBot conn input = (Some o, None)) /\
  (snd (GetBot conn input) <> None -> err <> None).
Proof.
  unfold FindBotVersionByName. cbv zeta.
  destruct (GetBot conn _) as [o [e|]]; cbn [errs.IsA_NotFoundException snd].
  - destruct (errs.AsNotFoundException e); intros [= <- <-];
      (split; [split; congruence | split; congruence]).
  - destruct o as [o|]; intros [= <- <-];
      (split; [split; congruence | split; congruence]).
Qed.

(** X8.  [FindSlotTypeVersionByName] returns an output or an error, never
    both and never neither; an output returned is the one the service call
    gave together with a nil error; and an error of the service call is
    never turned into a success. *)
Theorem FindSlotTypeVersionByName_outcome
        (conn : Client) (name version : string)
        (output : option GetSlotTypeOutput.t) (err : option error) :
  FindSlotTypeVersionByName conn name version = (output, err) ->
  let input := {| GetSlotTypeInput.Name := aws.String name;
                  GetSlotTypeInput.Version := aws.String version |} in
  (output = None <-> err <> None) /\
  (forall o, output = Some o -> GetSlotType conn input = (Some o, None)) /\
  (snd (GetSlotType conn input) <> None -> err <> None).
Proof.
  unfold FindSlotTypeVersionByName. cbv zeta.
  destruct (GetSlotType conn _) as [o [e|]]; cbn [errs.IsA_NotFoundException snd].
  - destruct (errs.AsNotFoundException e); intros [= <- <-];
      (split; [split; congruence | split; congruence]).
  - destruct o as [o|]; intros [= <- <-];
      (split; [split; congruence | split; congruence]).
Qed.

End SingleItem.

Section OtherKinds.
Context {K : Consts}.

(** X9.  When every page fetch succeeds, [FindLatestIntentVersionByName]
    returns the sentinel if no label other than the sentinel parses to an
    integer greater than zero, and otherwise the greatest such integer
    printed as a decimal string. *)
Theorem FindLatestIntentVersionByName_resolution
        (conn : Client) (name : string)
        (pages : list (option GetIntentVersionsOutput.t)) :
  intentVersionsOf conn name = map FetchPage pages ->
  let vs := observed IntentVersionLatest (intentLabels conn name) in
  ((forall v, In v vs -> v <= 0) ->
   FindLatestIntentVersionByName conn name = (IntentVersionLatest, None)) /\
  (forall m,
     In m vs -> 0 < m -> (forall v, In v vs -> v <= m) ->
     FindLatestIntentVersionByName conn name = (strconv.Itoa m, None)).
Proof.
  intros Hrs vs. subst vs. unfold intentLabels.
  rewrite FindLatestIntentVersionByName_template, Hrs.
  assert (Hok : fetchError (intentView (map FetchPage pages)) = None).
  { unfold intentView. rewrite fetchError_mapFetch. apply fetchError_success. }
  split.
  - now apply resolver_sentinel.
  - intros m. now apply resolver_maximum.
Qed.

(** X10.  If a page fetch fails, the pages before it having been fetched,
    [FindLatestIntentVersionByName] returns that error and the empty version
    string, whatever the pages fetched before held. *)
Theorem FindLatestIntentVersionByName_fetch_error
        (conn : Client) (name : string)
        (pre : list (option GetIntentVersionsOutput.t)) (e : error)
        (post : list (Fetch GetIntentVersionsOutput.t)) :
  intentVersionsOf conn name = map FetchPage pre ++ FetchErr e :: post ->
  FindLatestIntentVersionByName conn name = (EmptyString, Some e).
Proof.
  intros Hrs. rewrite FindLatestIntentVersionByName_template, Hrs.
  unfold LatestVersionResolver, intentView.
  now rewrite fetchError_mapFetch, fetchError_first.
Qed.

(** X11.  A version string that [FindLatestIntentVersionByName] returns
    without error is the sentinel or a decimal literal without sign and
    without leading zero, and it reads back as an integer that no numeric
    label other than the sentinel exceeds. *)
Theorem FindLatestIntentVersionByName_well_formed
        (conn : Client) (name : string) (s : string) :
  FindLatestIntentVersionByName conn name = (s, None) ->
  (s = IntentVersionLatest /\
   forall v, In v (observed IntentVersionLatest (intentLabels conn name)) -> v <= 0) \/
  (decimal.isCanonicalDecimal s = true /\
   exists m,
     strconv.Atoi s = Some m /\
     forall v, In v (observed IntentVersionLatest (intentLabels conn name)) -> v <= m).
Proof.
  rewrite FindLatestIntentVersionByName_template. intros H.
  apply resolver_success_cases in H as [H|(m & -> & Hm & _ & Hmax)];
    [now left|right].
  split; [now apply strconv_facts.Itoa_canonical|].
  exists m. split; auto. apply strconv_facts.Atoi_Itoa.
  unfold strconv.minInt, strconv.maxInt, strconv.intSize in *.
  change (2 ^ (64 - 1)) with 9223372036854775808 in *. lia.
Qed.

(** X12.  When every page fetch succeeds, [FindLatestSlotTypeVersionByName]
    returns the sentinel if no label other than the sentinel parses to an
    integer greater than zero, and otherwise the greatest such integer
    printed as a decimal string. *)
Theorem FindLatestSlotTypeVersionByName_resolution
        (conn : Client) (name : string)
        (pages : list (option GetSlotTypeVersionsOutput.t)) :
  slotTypeVersionsOf conn name = map FetchPage pages ->
  let vs := observed SlotTypeVersionLatest (slotTypeLabels conn name) in
  ((forall v, In v vs -> v <= 0) ->
   FindLatestSlotTypeVersionByName conn name = (SlotTypeVersionLatest, None)) /\
  (forall m,
     In m vs -> 0 < m -> (forall v, In v vs -> v <= m) ->
     FindLatestSlotTypeVersionByName conn name = (strconv.Itoa m, None)).
Proof.
  intros Hrs vs. subst vs. unfold slotTypeLabels.
  rewrite FindLatestSlotTypeVersionByName_template, Hrs.
  assert (Hok : fetchError (slotTypeView (map FetchPage pages)) = None).
  { unfold slotTypeView. rewrite fetchError_mapFetch. apply fetchError_success. }
  split.
  - now apply resolver_sentinel.
  - intros m. now apply resolver_maximum.
Qed.

(** X13.  If a page fetch fails, the pages before it having been fetched,
    [FindLatestSlotTypeVersionByName] returns that error and the empty version
    string, whatever the pages fetched before held. *)
Theorem FindLatestSlotTypeVersionByName_fetch_error
        (conn : Client) (name : string)
        (pre : list (option GetSlotTypeVersionsOutput.t)) (e : error)
        (post : list (Fetch GetSlotTypeVersionsOutput.t)) :
  slotTypeVersionsOf conn name = map FetchPage pre ++ FetchErr e :: post ->
  FindLatestSlotTypeVersionByName conn name = (EmptyString, Some e).
Proof.
  intros Hrs. rewrite FindLatestSlotTypeVersionByName_template, Hrs.
  unfold LatestVersionResolver, slotTypeView.
  now rewrite fetchError_mapFetch, fetchError_first.
Qed.

(** X14.  A version string that [FindLatestSlotTypeVersionByName] returns
    without error is the sentinel or a decimal literal without sign and
    without leading zero, and it reads back as an integer that no numeric
    label other than the sentinel exceeds. *)
Theorem FindLatestSlotTypeVersionByName_well_formed
        (conn : Client) (name : string) (s : string) :
  FindLatestSlotTypeVersionByName conn name = (s, None) ->
  (s = SlotTypeVersionLatest /\
   forall v, In v (observed SlotTypeVersionLatest (slotTypeLabels conn name)) -> v <= 0) \/
  (decimal.isCanonicalDecimal s = true /\
   exists m,
     strconv.Atoi s = Some m /\
     forall v, In v (observed SlotTypeVersionLatest (slotTypeLabels conn name)) -> v <= m).
Proof.
  rewrite FindLatestSlotTypeVersionByName_template. intros H.
  apply resolver_success_cases in H as [H|(m & -> & Hm & _ & Hmax)];
    [now left|right].
  split; [now apply strconv_facts.Itoa_canonical|].
  exists m. split; auto. apply strconv_facts.Atoi_Itoa.
  unfold strconv.minInt, strconv.maxInt, strconv.intSize in *.
  change (2 ^ (64 - 1)) with 9223372036854775808 in *. lia.
Qed.

End OtherKinds.

(** Pages 1, 3 and 3, 2 against a nil page and the page 2, 3, 1, 1. *)
Lemma FindLatestBotVersionByName_same_labels_witness :
  FindLatestBotVersionByName (K := LexConsts)
    (Samples.listing [FetchPage (Some ["1"; "3"]); FetchPage (Some ["3"; "2"])])
    "OrderFlowers" =
  FindLatestBotVersionByName (K := LexConsts)
    (Samples.listing [FetchPage None; FetchPage (Some ["2"; "3"; "1"; "1"])])
    "BookTrip".
Proof.
  refine (@FindLatestBotVersionByName_same_labels LexConsts
            (Samples.listing
               [FetchPage (Some ["1"; "3"]); FetchPage (Some ["3"; "2"])])
            (Samples.listing
               [FetchPage None; FetchPage (Some ["2"; "3"; "1"; "1"])])
            "OrderFlowers" "BookTrip"
            [Samples.botPage ["1"; "3"]; Samples.botPage ["3"; "2"]]
            [None; Samples.botPage ["2"; "3"; "1"; "1"]]
            eq_refl eq_refl _).
  intros label. vm_compute. tauto.
Defined.

(** Labels 2, x against labels x, 2, 6. *)
Lemma FindLatestBotVersionByName_monotone_witness :
  exists m m', "2" = strconv.Itoa m /\ "6" = strconv.Itoa m' /\ 2 <= m /\ m <= m'.
Proof.
  refine (@FindLatestBotVersionByName_monotone LexConsts
            (Samples.listing [FetchPage (Some ["2"; "x"])])
            (Samples.listing [FetchPage (Some ["x"; "2"]); FetchPage (Some ["6"])])
            "OrderFlowers" "OrderFlowers" "2" "6" 2 eq_refl eq_refl _ _ _).
  - intros label. vm_compute. tauto.
  - vm_compute. auto.
  - lia.
Defined.

(** The resolved version 4 comes from a record. *)
Lemma FindLatestBotVersionByName_attained_witness :
  let conn := Samples.listing [FetchPage (Some ["4"; "$LATEST"])] in
  ("4" = "$LATEST" /\
   forall v, In v (observed "$LATEST" (botLabels conn "OrderFlowers")) -> v <= 0) \/
  (exists page bot m,
     In (FetchPage (Some page)) (botVersionsOf conn "OrderFlowers") /\
     In bot (GetBotVersionsOutput.Bots page) /\
     botLabel bot <> "$LATEST" /\
     strconv.Atoi (botLabel bot) = Some m /\
     0 < m /\ "4" = strconv.Itoa m).
Proof.
  exact (@FindLatestBotVersionByName_attained LexConsts
           (Samples.listing [FetchPage (Some ["4"; "$LATEST"])])
           "OrderFlowers" "4" eq_refl).
Defined.

(** The canonical label 12 is returned as it is. *)
Lemma FindLatestBotVersionByName_verbatim_witness :
  FindLatestBotVersionByName (K := LexConsts)
    (Samples.listing [FetchPage (Some ["9"; "12"]); FetchPage (Some ["$LATEST"])])
    "OrderFlowers" = ("12", None).
Proof.
  refine (@FindLatestBotVersionByName_verbatim LexConsts
            (Samples.listing
               [FetchPage (Some ["9"; "12"]); FetchPage (Some ["$LATEST"])])
            "OrderFlowers"
            [Samples.botPage ["9"; "12"]; Samples.botPage ["$LATEST"]]
            "12" 12 eq_refl _ _ eq_refl eq_refl _ _).
  - vm_compute. auto.
  - discriminate.
  - lia.
  - intros v Hv. vm_compute in Hv. destruct Hv as [<-|[<-|[]]]; lia.
Defined.

(** A throttled second fetch is where the error comes from. *)
Lemma FindLatestBotVersionByName_failure_origin_witness :
  let conn :=
    Samples.listing [FetchPage (Some ["4"]); FetchErr Samples.throttled] in
  EmptyString = EmptyString /\
  exists pre post,
    botVersionsOf conn "OrderFlowers" =
    map FetchPage pre ++ FetchErr Samples.throttled :: post.
Proof.
  exact (@FindLatestBotVersionByName_failure_origin LexConsts
           (Samples.listing [FetchPage (Some ["4"]); FetchErr Samples.throttled])
           "OrderFlowers" EmptyString (Some Samples.throttled) eq_refl).
Defined.

(** Labels 7, $LATEST, 2 with and without the sentinel record. *)
Lemma FindLatestBotVersionByName_sentinel_skipped_witness :
  FindLatestBotVersionByName (K := LexConsts)
    (Samples.listing [FetchPage (Some ["7"; "2"]); FetchPage None])
    "OrderFlowers" =
  FindLatestBotVersionByName (K := LexConsts)
    (Samples.listing [FetchPage (Some ["7"; "$LATEST"; "2"]); FetchPage None])
    "OrderFlowers".
Proof.
  exact (@FindLatestBotVersionByName_sentinel_skipped LexConsts
           (Samples.listing
              [FetchPage (Some ["7"; "$LATEST"; "2"]); FetchPage None])
           (Samples.listing [FetchPage (Some ["7"; "2"]); FetchPage None])
           "OrderFlowers" eq_refl).
Defined.

(** The service has the bot but also reports throttling: no output. *)
Lemma FindBotVersionByName_outcome_witness :
  let conn :=
    Samples.answering (Some Samples.orderFlowers) None (Some Samples.throttled) in
  let input := {| GetBotInput.Name := aws.String "OrderFlowers";
                  GetBotInput.VersionOrAlias := aws.String "3" |} in
  ((@None GetBotOutput.t) = None <-> Some Samples.throttled <> None) /\
  (forall o, None = Some o -> GetBot conn input = (Some o, None)) /\
  (snd (GetBot conn input) <> None -> Some Samples.throttled <> None).
Proof.
  exact (@FindBotVersionByName_outcome
           (Samples.answering (Some Samples.orderFlowers) None
              (Some Samples.throttled))
           "OrderFlowers" "3" None (Some Samples.throttled) eq_refl).
Defined.

(** The service has the slot type and reports no error. *)
Lemma FindSlotTypeVersionByName_outcome_witness :
  let conn := Samples.answering None (Some Samples.flowerTypes) None in
  let input := {| GetSlotTypeInput.Name := aws.String "FlowerTypes";
                  GetSlotTypeInput.Version := aws.String "1" |} in
  (Some Samples.flowerTypes = None <-> (@None error) <> None) /\
  (forall o, Some Samples.flowerTypes = Some o ->
             GetSlotType conn input = (Some o, None)) /\
  (snd (GetSlotType conn input) <> None -> (@None error) <> None).
Proof.
  exact (@FindSlotTypeVersionByName_outcome
           (Samples.answering None (Some Samples.flowerTypes) None)
           "FlowerTypes" "1" (Some Samples.flowerTypes) None eq_refl).
Defined.

(** Intent versions 1, $LATEST, 3 and abc, 2; and a page without numbers. *)
Lemma FindLatestIntentVersionByName_resolution_witness :
  FindLatestIntentVersionByName (K := LexConsts)
    (Samples.listing
       [FetchPage (Some ["1"; "$LATEST"; "3"]); FetchPage (Some ["abc"; "2"])])
    "OrderFlowers" = ("3", None) /\
  FindLatestIntentVersionByName (K := LexConsts)
    (Samples.listing [FetchPage (Some ["$LATEST"; "-1"])])
    "OrderFlowers" = ("$LATEST", None).
Proof.
  split.
  - refine (proj2
      (@FindLatestIntentVersionByName_resolution LexConsts
         (Samples.listing
            [FetchPage (Some ["1"; "$LATEST"; "3"]); FetchPage (Some ["abc"; "2"])])
         "OrderFlowers"
         [Samples.intentPage ["1"; "$LATEST"; "3"];
          Samples.intentPage ["abc"; "2"]]
         eq_refl) 3 _ _ _).
    + vm_compute. auto.
    + lia.
    + intros v Hv. vm_compute in Hv. destruct Hv as [<-|[<-|[<-|[]]]]; lia.
  - refine (proj1
      (@FindLatestIntentVersionByName_resolution LexConsts
         (Samples.listing [FetchPage (Some ["$LATEST"; "-1"])])
         "OrderFlowers" [Samples.intentPage ["$LATEST"; "-1"]] eq_refl) _).
    intros v Hv. vm_compute in Hv. destruct Hv as [<-|[]]. lia.
Defined.

(** The first intent page fetch is throttled. *)
Lemma FindLatestIntentVersionByName_fetch_error_witness :
  FindLatestIntentVersionByName (K := LexConsts)
    (Samples.listing [FetchErr Samples.throttled; FetchPage (Some ["9"])])
    "OrderFlowers" = (EmptyString, Some Samples.throttled).
Proof.
  exact (@FindLatestIntentVersionByName_fetch_error LexConsts
           (Samples.listing [FetchErr Samples.throttled; FetchPage (Some ["9"])])
           "OrderFlowers" [] Samples.throttled
           [FetchPage (Samples.intentPage ["9"])] eq_refl).
Defined.

(** The labels +8 and 007 resolve to the literal 8. *)
Lemma FindLatestIntentVersionByName_well_formed_witness :
  let conn := Samples.listing [FetchPage (Some ["+8"; "007"])] in
  ("8" = "$LATEST" /\
   forall v, In v (observed "$LATEST" (intentLabels conn "OrderFlowers")) -> v <= 0) \/
  (decimal.isCanonicalDecimal "8" = true /\
   exists m,
     strconv.Atoi "8" = Some m /\
     forall v, In v (observed "$LATEST" (intentLabels conn "OrderFlowers")) -> v <= m).
Proof.
  exact (@FindLatestIntentVersionByName_well_formed LexConsts
           (Samples.listing [FetchPage (Some ["+8"; "007"])])
           "OrderFlowers" "8" eq_refl).
Defined.

(** SlotType versions 1, $LATEST, 3 and abc, 2; and a page without numbers. *)
Lemma FindLatestSlotTypeVersionByName_resolution_witness :
  FindLatestSlotTypeVersionByName (K := LexConsts)
    (Samples.listing
       [FetchPage (Some ["1"; "$LATEST"; "3"]); FetchPage (Some ["abc"; "2"])])
    "FlowerTypes" = ("3", None) /\
  FindLatestSlotTypeVersionByName (K := LexConsts)
    (Samples.listing [FetchPage (Some ["$LATEST"; "-1"])])
    "FlowerTypes" = ("$LATEST", None).
Proof.
  split.
  - refine (proj2
      (@FindLatestSlotTypeVersionByName_resolution LexConsts
         (Samples.listing
            [FetchPage (Some ["1"; "$LATEST"; "3"]); FetchPage (Some ["abc"; "2"])])
         "FlowerTypes"
         [Samples.slotTypePage ["1"; "$LATEST"; "3"];
          Samples.slotTypePage ["abc"; "2"]]
         eq_refl) 3 _ _ _).
    + vm_compute. auto.
    + lia.
    + intros v Hv. vm_compute in Hv. destruct Hv as [<-|[<-|[<-|[]]]]; lia.
  - refine (proj1
      (@FindLatestSlotTypeVersionByName_resolution LexConsts
         (Samples.listing [FetchPage (Some ["$LATEST"; "-1"])])
         "FlowerTypes" [Samples.slotTypePage ["$LATEST"; "-1"]] eq_refl) _).
    intros v Hv. vm_compute in Hv. destruct Hv as [<-|[]]. lia.
Defined.

(** The first slot type page fetch is throttled. *)
Lemma FindLatestSlotTypeVersionByName_fetch_error_witness :
  FindLatestSlotTypeVersionByName (K := LexConsts)
    (Samples.listing [FetchErr Samples.throttled; FetchPage (Some ["9"])])
    "FlowerTypes" = (EmptyString, Some Samples.throttled).
Proof.
  exact (@FindLatestSlotTypeVersionByName_fetch_error LexConsts
           (Samples.listing [FetchErr Samples.throttled; FetchPage (Some ["9"])])
           "FlowerTypes" [] Samples.throttled
           [FetchPage (Samples.slotTypePage ["9"])] eq_refl).
Defined.

(** The labels +8 and 007 resolve to the literal 8. *)
Lemma FindLatestSlotTypeVersionByName_well_formed_witness :
  let conn := Samples.listing [FetchPage (Some ["+8"; "007"])] in
  ("8" = "$LATEST" /\
   forall v, In v (observed "$LATEST" (slotTypeLabels conn "FlowerTypes")) -> v <= 0) \/
  (decimal.isCanonicalDecimal "8" = true /\
   exists m,
     strconv.Atoi "8" = Some m /\
     forall v, In v (observed "$LATEST" (slotTypeLabels conn "FlowerTypes")) -> v <= m).
Proof.
  exact (@FindLatestSlotTypeVersionByName_well_formed LexConsts
           (Samples.listing [FetchPage (Some ["+8"; "007"])])
           "FlowerTypes" "8" eq_refl).
Defined.

End lexmodels_more.
